(** * Memo search client: query compiler, search executor and bulk ingestion

    A shallow embedding of [opensearch_client.py] (class
    [MemoOpenSearchClient]) and of [post_memo_to_opensearch.py]
    ([bulk_index]).  The Python code passes JSON-like dictionaries between
    its layers, so the embedding works on a datatype of Python values;
    dictionaries keep their insertion order, exceptions are explicit
    results. *)

From Stdlib Require Import List String Ascii ZArith Bool Lia.
From Stdlib Require Import Floats.SpecFloat.
Import ListNotations.
Local Open Scope string_scope.
Local Open Scope list_scope.

(** ** Python values *)

(** JSON-like Python values.  A [float] is an IEEE-754 value in the
    Standard Library's specification format, an [int] is unbounded, a
    [dict] is the list of its items in insertion order. *)
#[warnings="-register-all"]
Inductive value : Type :=
  | PNone
  | PBool (b : bool)
  | PInt (z : Z)
  | PFloat (f : spec_float)
  | PStr (s : string)
  | PList (l : list value)
  | PDict (d : list (string * value)).

Definition dict := list (string * value).

(** The exceptions the modelled code can meet. *)
Inductive exn : Type :=
  | KeyError (key : string)
  | TypeError
  | AttributeError
  | StopIteration
  | RuntimeError (sample : list value)
  | HTTPError (status_code : Z)
  | NotFoundError
  | TransportError (status_code : Z)
  | BulkIndexError (errors : list value).

(** A call either returns or raises. *)
Inductive result (A : Type) : Type :=
  | Ok (a : A)
  | Raise (e : exn).
Arguments Ok {A} a.
Arguments Raise {A} e.

Definition bind {A B} (c : result A) (k : A -> result B) : result B :=
  match c with
  | Ok a => k a
  | Raise e => Raise e
  end.

Notation "x <- c ;; k" := (bind c (fun x => k))
  (at level 61, c at next level, right associativity).

(** [for x in xs: s = body(s, x)], stopping at the first exception. *)
Fixpoint for_in {A S} (xs : list A) (body : S -> A -> result S) (s : S)
  : result S :=
  match xs with
  | [] => Ok s
  | x :: xs' => s' <- body s x ;; for_in xs' body s'
  end.

(** *** Dictionaries *)

(** [d.get(k)], [None] when the key is absent. *)
Fixpoint dict_get (d : dict) (k : string) : option value :=
  match d with
  | [] => None
  | (k', v) :: d' => if String.eqb k' k then Some v else dict_get d' k
  end.

(** [d.get(k, default)] *)
Definition dict_get_default (d : dict) (k : string) (default : value) : value :=
  match dict_get d k with
  | Some v => v
  | None => default
  end.

(** [k in d] *)
Definition dict_mem (d : dict) (k : string) : bool :=
  match dict_get d k with
  | Some _ => true
  | None => false
  end.

(** [d[k] = v]: an existing key keeps its position, a new key goes last. *)
Fixpoint dict_set (d : dict) (k : string) (v : value) : dict :=
  match d with
  | [] => [(k, v)]
  | (k', v') :: d' =>
      if String.eqb k' k then (k', v) :: d' else (k', v') :: dict_set d' k v
  end.

(** [del d[k]] for a key that may be absent ([d.pop(k, None)]). *)
Definition dict_del (d : dict) (k : string) : dict :=
  filter (fun kv => negb (String.eqb (fst kv) k)) d.

(** *** Operations on values *)

(** [bool(v)] *)
Definition py_truthy (v : value) : bool :=
  match v with
  | PNone => false
  | PBool b => b
  | PInt z => negb (z =? 0)%Z
  | PFloat (S754_zero _) => false
  | PFloat _ => true
  | PStr s => negb (String.eqb s "")
  | PList l => match l with [] => false | _ => true end
  | PDict d => match d with [] => false | _ => true end
  end.

(** [a or b] *)
Definition py_or (a b : value) : value :=
  if py_truthy a then a else b.

(** [v.get(k, default)]: only a dict has the method. *)
Definition py_get (v : value) (k : string) (default : value) : result value :=
  match v with
  | PDict d => Ok (dict_get_default d k default)
  | _ => Raise AttributeError
  end.

(** [v[k]] for a string key [k]. *)
Definition py_getitem (v : value) (k : string) : result value :=
  match v with
  | PDict d =>
      match dict_get d k with
      | Some x => Ok x
      | None => Raise (KeyError k)
      end
  | _ => Raise TypeError
  end.

(** The items a [for] loop over [v] sees: the elements of a list, the keys
    of a dict, the characters of a string. *)
Definition py_iter (v : value) : result (list value) :=
  match v with
  | PList l => Ok l
  | PDict d => Ok (map (fun kv => PStr (fst kv)) d)
  | PStr s => Ok (map (fun c => PStr (String c "")) (list_ascii_of_string s))
  | _ => Raise TypeError
  end.

(** [isinstance(v, dict)] *)
Definition is_dict (v : value) : bool :=
  match v with
  | PDict _ => true
  | _ => false
  end.

(** [v is not None] *)
Definition is_not_none (v : value) : bool :=
  match v with
  | PNone => false
  | _ => true
  end.

(** The float [1.0]: mantissa [2^52], exponent [-52]. *)
Definition float_one : spec_float := S754_finite false 4503599627370496 (-52).

(** An [int] equals a [float] when they denote the same number. *)
Definition int_eq_float (z : Z) (f : spec_float) : bool :=
  match f with
  | S754_zero _ => (z =? 0)%Z
  | S754_finite s m e =>
      let v := if s then Z.neg m else Z.pos m in
      if (0 <=? e)%Z then (z =? v * 2 ^ e)%Z else (z * 2 ^ (- e) =? v)%Z
  | _ => false
  end.

(** [v == f] for a float [f]: numbers compare by value ([bool] is an
    [int]), anything else differs from a float. *)
Definition py_eq_float (v : value) (f : spec_float) : bool :=
  match v with
  | PFloat g => SFeqb g f
  | PInt z => int_eq_float z f
  | PBool b => int_eq_float (if b then 1 else 0)%Z f
  | _ => false
  end.

(** ** Request models *)

Inductive match_type : Type :=
  | best_fields | most_fields | phrase | phrase_prefix | bool_prefix.

Inductive operator : Type :=
  | op_and | op_or.

Definition match_type_str (t : match_type) : string :=
  match t with
  | best_fields => "best_fields"
  | most_fields => "most_fields"
  | phrase => "phrase"
  | phrase_prefix => "phrase_prefix"
  | bool_prefix => "bool_prefix"
  end.

Definition operator_str (o : operator) : string :=
  match o with
  | op_and => "and"
  | op_or => "or"
  end.

Record Criteria : Type := mkCriteria {
  industry : list string;
  sector : list string;
  region : list string;
  currency : list string
}.

Record TextQuery : Type := mkTextQuery {
  tq_query : string;
  tq_fields : list string;
  tq_type : match_type;
  tq_operator : operator;
  tq_boost : spec_float
}.

Record SearchRequest : Type := mkSearchRequest {
  criteria : Criteria;
  should_text : list TextQuery;
  must_text : list TextQuery;
  minimum_should_match : Z;
  size : Z;
  from_ : Z;
  track_total_hits : bool;
  explain : bool;
  sort : option (list dict);
  source_includes : option (list string);
  source_excludes : option (list string)
}.

Definition str_list (l : list string) : value := PList (map PStr l).

Definition opt_value {A} (f : A -> value) (o : option A) : value :=
  match o with
  | Some a => f a
  | None => PNone
  end.

(** The dictionaries the models dump to ([.dict(by_alias=True)]): one key
    per field, in declaration order, nested models dumped too; [from_] goes
    under its alias [from]. *)
Definition Criteria_dict (c : Criteria) : dict :=
  [ ("industry", str_list (industry c));
    ("sector", str_list (sector c));
    ("region", str_list (region c));
    ("currency", str_list (currency c)) ].

Definition TextQuery_dict (tq : TextQuery) : dict :=
  [ ("query", PStr (tq_query tq));
    ("fields", str_list (tq_fields tq));
    ("type", PStr (match_type_str (tq_type tq)));
    ("operator", PStr (operator_str (tq_operator tq)));
    ("boost", PFloat (tq_boost tq)) ].

Definition SearchRequest_dict (r : SearchRequest) : dict :=
  [ ("criteria", PDict (Criteria_dict (criteria r)));
    ("should_text", PList (map (fun tq => PDict (TextQuery_dict tq)) (should_text r)));
    ("must_text", PList (map (fun tq => PDict (TextQuery_dict tq)) (must_text r)));
    ("minimum_should_match", PInt (minimum_should_match r));
    ("size", PInt (size r));
    ("from", PInt (from_ r));
    ("track_total_hits", PBool (track_total_hits r));
    ("explain", PBool (explain r));
    ("sort", opt_value (fun l => PList (map PDict l)) (sort r));
    ("source_includes", opt_value str_list (source_includes r));
    ("source_excludes", opt_value str_list (source_excludes r)) ].

Definition DEFAULT_FACET_FIELDS : list string :=
  ["industry"; "sector"; "region"; "currency"].

(** ** Query builders *)

(** [MemoOpenSearchClient._criteria_filters] *)
Definition _criteria_filters (criteria : value) : result (list value) :=
  for_in ["industry"; "sector"; "region"; "currency"]
    (fun filters field =>
       got <- py_get criteria field PNone ;;
       let vals := py_or got (PList []) in
       if py_truthy vals
       then Ok (filters ++ [PDict [("terms", PDict [(field, vals)])]])
       else Ok filters)
    [].

(** [MemoOpenSearchClient._multi_match_clause] *)
Definition _multi_match_clause (tq : value) : result value :=
  q <- py_getitem tq "query" ;;
  fs <- py_getitem tq "fields" ;;
  ty <- py_get tq "type" (PStr "best_fields") ;;
  op <- py_get tq "operator" (PStr "or") ;;
  let multi_match :=
    [("query", q); ("fields", fs); ("type", ty); ("operator", op)] in
  boost <- py_get tq "boost" PNone ;;
  if is_not_none boost && negb (py_eq_float boost float_one)
  then Ok (PDict [("multi_match", PDict (dict_set multi_match "boost" boost))])
  else Ok (PDict [("multi_match", PDict multi_match)]).

(** The loops of [build_bool_query] that compile a list of text queries. *)
Definition compile_clauses (tqs : value) : result (list value) :=
  items <- py_iter tqs ;;
  for_in items
    (fun clauses tq => cl <- _multi_match_clause tq ;; Ok (clauses ++ [cl]))
    [].

(** [MemoOpenSearchClient.build_bool_query] *)
Definition build_bool_query (request : value) : result value :=
  c <- py_get request "criteria" PNone ;;
  let criteria := py_or c (PDict []) in
  filters <- _criteria_filters criteria ;;
  mt <- py_get request "must_text" (PList []) ;;
  must <- compile_clauses (py_or mt (PList [])) ;;
  st <- py_get request "should_text" (PList []) ;;
  should <- compile_clauses (py_or st (PList [])) ;;
  msm <- py_get request "minimum_should_match" (PInt 1) ;;
  let minimum_should_match :=
    if negb (py_truthy (PList should)) then PInt 0 else msm in
  Ok (PDict [("bool", PDict [ ("filter", PList filters);
                              ("must", PList must);
                              ("should", PList should);
                              ("minimum_should_match", minimum_should_match) ])]).

(** ** The client *)

Section Client.

(** [self.index] *)
Variable index : string.

(** [self.client.search(index=..., body=...)]: the engine's answer to a
    search payload, or the transport error it raises. *)
Variable client_search : string -> value -> result value.

(** [self.client.get(index=..., id=..., _source_includes=...)] *)
Variable client_get : string -> string -> option (list string) -> result value.

(** *** Search *)

(** The payload [search] assembles before it calls the engine. *)
Definition search_body (request : value) (facets : bool)
    (facet_fields : option (list string)) : result dict :=
  let facet_fields :=
    match facet_fields with
    | Some (f :: fs) => f :: fs
    | _ => DEFAULT_FACET_FIELDS
    end in
  query <- build_bool_query request ;;
  sz <- py_get request "size" (PInt 10) ;;
  fr0 <- py_get request "from" (PInt 0) ;;
  fr <- py_get request "from_" fr0 ;;
  tth <- py_get request "track_total_hits" (PBool true) ;;
  let body :=
    [("query", query); ("size", sz); ("from", fr); ("track_total_hits", tth)] in
  ex <- py_get request "explain" PNone ;;
  let body := if py_truthy ex then dict_set body "explain" (PBool true) else body in
  so <- py_get request "sort" PNone ;;
  body <- (if py_truthy so
           then s <- py_getitem request "sort" ;; Ok (dict_set body "sort" s)
           else Ok body) ;;
  src_in <- py_get request "source_includes" PNone ;;
  src_ex <- py_get request "source_excludes" PNone ;;
  let body :=
    if is_not_none src_in || is_not_none src_ex
    then
      let src := [] in
      let src := if is_not_none src_in then dict_set src "includes" src_in else src in
      let src := if is_not_none src_ex then dict_set src "excludes" src_ex else src in
      dict_set body "_source" (PDict src)
    else body in
  let body :=
    if facets
    then dict_set body "aggs"
           (PDict (fold_left
                     (fun aggs f =>
                        dict_set aggs (f ++ "_facet")%string
                          (PDict [("terms", PDict [("field", PStr f); ("size", PInt 50)])]))
                     facet_fields []))
    else body in
  Ok body.

(** The envelope [search] builds from the engine's response. *)
Definition search_envelope (resp : value) (body : dict) : result value :=
  h <- py_get resp "hits" (PDict []) ;;
  hits <- py_get h "hits" (PList []) ;;
  h' <- py_get resp "hits" (PDict []) ;;
  total <- py_get h' "total" (PDict []) ;;
  total_value <- (if is_dict total then py_get total "value" PNone else Ok total) ;;
  aggregations <- py_get resp "aggregations" (PDict []) ;;
  Ok (PDict [ ("total", total_value);
              ("hits", hits);
              ("aggregations", aggregations);
              ("raw", resp);
              ("query", PDict body) ]).

(** [MemoOpenSearchClient.search] *)
Definition search (request : value) (facets : bool)
    (facet_fields : option (list string)) : result value :=
  body <- search_body request facets facet_fields ;;
  resp <- client_search index (PDict body) ;;
  search_envelope resp body.

(** *** Lookup by id *)

(** [MemoOpenSearchClient.get_memo]: [except NotFoundError] catches that
    exception only, any other one goes on to the caller. *)
Definition get_memo (doc_id : string) (source_includes : option (list string))
  : result value :=
  match client_get index doc_id source_includes with
  | Raise NotFoundError => Ok PNone
  | r => r
  end.

(** *** Bulk upsert *)

(** The state of the engine behind the client. *)
Variable Engine : Type.

(** Modelled from the spec: the engine, which is not part of the sources.
    It handles one write action of a bulk request: the new state, and
    either the success marker ([None]) or the error descriptor of the
    action. *)
Variable engine_write : Engine -> value -> Engine * option value.

(** Modelled from the spec: the engine's bulk endpoint, which is not part
    of the sources.  The actions of one request are handled one by one, in
    order; the response has one item per action. *)
Fixpoint client_bulk (st : Engine) (chunk : list value)
  : Engine * list (option value) :=
  match chunk with
  | [] => (st, [])
  | action :: chunk' =>
      let (st1, item) := engine_write st action in
      let (st2, items) := client_bulk st1 chunk' in
      (st2, item :: items)
  end.

(** Modelled from the spec: the chunking of [helpers.bulk], a function of
    the opensearch-py library, which is not part of the sources.  The
    actions are grouped in chunks of [chunk_size]; [bulk_actions] is the
    chunk being filled. *)
Fixpoint chunk_actions (chunk_size : Z) (actions bulk_actions : list value)
  : list (list value) :=
  match actions with
  | [] => match bulk_actions with [] => [] | _ => [bulk_actions] end
  | action :: actions' =>
      match bulk_actions with
      | _ :: _ =>
          if (Z.of_nat (List.length bulk_actions) =? chunk_size)%Z
          then bulk_actions :: chunk_actions chunk_size actions' [action]
          else chunk_actions chunk_size actions' (bulk_actions ++ [action])
      | [] => chunk_actions chunk_size actions' [action]
      end
  end.

(** The error descriptors among the items of a bulk response. *)
Definition item_errors (items : list (option value)) : list value :=
  flat_map (fun item => match item with Some e => [e] | None => [] end) items.

(** The number of success markers among the items of a bulk response. *)
Definition item_successes (items : list (option value)) : Z :=
  Z.of_nat
    (List.length
       (filter (fun item => match item with None => true | Some _ => false end) items)).

(** Modelled from the spec: the submission loop of [helpers.bulk], which
    is not part of the sources.  Each chunk is one bulk request; with
    [raise_on_error] a chunk with a failed action raises, without it the
    failures are collected and the next chunk is submitted.  The result
    comes with the final engine state and the requests made. *)
Fixpoint submit_chunks (st : Engine) (chunks sent : list (list value))
    (raise_on_error : bool) (success : Z) (errors : list value)
  : Engine * list (list value) * result (Z * list value) :=
  match chunks with
  | [] => (st, sent, Ok (success, errors))
  | chunk :: chunks' =>
      let (st', items) := client_bulk st chunk in
      let sent' := sent ++ [chunk] in
      match item_errors items with
      | e :: es =>
          if raise_on_error
          then (st', sent', Raise (BulkIndexError (e :: es)))
          else submit_chunks st' chunks' sent' raise_on_error
                 (success + item_successes items)%Z (errors ++ e :: es)
      | [] =>
          submit_chunks st' chunks' sent' raise_on_error
            (success + item_successes items)%Z errors
      end
  end.

(** Modelled from the spec: [helpers.bulk(client, actions, chunk_size=...,
    raise_on_error=...)] of the opensearch-py library. *)
Definition helpers_bulk (st : Engine) (actions : list value) (chunk_size : Z)
    (raise_on_error : bool)
  : Engine * list (list value) * result (Z * list value) :=
  submit_chunks st (chunk_actions chunk_size actions []) [] raise_on_error 0%Z [].

(** The generator [gen_actions] of [bulk_upsert]. *)
Definition gen_actions (docs : list (string * value)) : list value :=
  map (fun d =>
         PDict [ ("_op_type", PStr "index");
                 ("_index", PStr index);
                 ("_id", PStr (fst d));
                 ("_source", snd d) ])
      docs.

(** [MemoOpenSearchClient.bulk_upsert] *)
Definition bulk_upsert (st : Engine) (docs : list (string * value))
    (chunk_size : Z)
  : Engine * list (list value) * result value :=
  let '(st', sent, r) := helpers_bulk st (gen_actions docs) chunk_size false in
  (st', sent,
   se <- r ;;
   Ok (PDict [("success", PInt (fst se)); ("errors", PList (snd se))])).

End Client.

Arguments client_bulk {Engine} engine_write st chunk.
Arguments submit_chunks {Engine} engine_write st chunks sent raise_on_error success errors.
Arguments helpers_bulk {Engine} engine_write st actions chunk_size raise_on_error.
Arguments bulk_upsert index {Engine} engine_write st docs chunk_size.

(** ** The standalone ingestion utility *)

Section Ingest.

(** [OPENSEARCH_URL] *)
Variable OPENSEARCH_URL : string.

(** A [requests.Response]: the status code and what [.json()] gives. *)
Record Response : Type := mkResponse {
  status_code : Z;
  json : result value
}.

(** [requests.post(url, headers=..., data=payload, timeout=120)] *)
Variable requests_post : string -> string -> result Response.

(** [resp.raise_for_status()] *)
Definition raise_for_status (resp : Response) : result unit :=
  if ((400 <=? status_code resp) && (status_code resp <? 600))%Z
  then Raise (HTTPError (status_code resp))
  else Ok tt.

(** [s.rstrip(c)] for one character [c]. *)
Fixpoint rstrip (c : ascii) (s : string) : string :=
  match s with
  | EmptyString => EmptyString
  | String a s' =>
      let r := rstrip c s' in
      if Ascii.eqb a c && String.eqb r "" then "" else String a r
  end.

Definition newline : string := String (ascii_of_nat 10) "".

(** [next(iter(it.values()))] *)
Definition first_value (it : value) : result value :=
  match it with
  | PDict ((_, v) :: _) => Ok v
  | PDict [] => Raise StopIteration
  | _ => Raise AttributeError
  end.

(** [k in container] for a string [k]: a key of a dict, an element of a
    list, a substring of a string. *)
Definition py_contains (container : value) (k : string) : result bool :=
  match container with
  | PDict d => Ok (dict_mem d k)
  | PList l =>
      Ok (existsb (fun v => match v with PStr s => String.eqb s k | _ => false end) l)
  | PStr s =>
      Ok (match String.index 0 k s with Some _ => true | None => false end)
  | _ => Raise TypeError
  end.

(** The loop of [bulk_index] over the items of the response, with its
    [break]. *)
Fixpoint collect_errors (items errors : list value) : result (list value) :=
  match items with
  | [] => Ok errors
  | it :: items' =>
      action <- first_value it ;;
      has_error <- py_contains action "error" ;;
      errors <- (if has_error : bool
                 then e <- py_getitem action "error" ;; Ok (errors ++ [e])
                 else Ok errors) ;;
      if (3 <=? List.length errors)%nat then Ok errors
      else collect_errors items' errors
  end.

(** [bulk_index]; the [RuntimeError] carries the sample its message
    prints. *)
Definition bulk_index (ndjson_lines : list string) : result unit :=
  let url := (rstrip "/" OPENSEARCH_URL ++ "/_bulk")%string in
  let payload := (String.concat newline ndjson_lines ++ newline)%string in
  resp <- requests_post url payload ;;
  _ <- raise_for_status resp ;;
  result <- json resp ;;
  flag <- py_get result "errors" PNone ;;
  if py_truthy flag
  then
    its <- py_get result "items" (PList []) ;;
    items <- py_iter its ;;
    errors <- collect_errors items [] ;;
    Raise (RuntimeError errors)
  else Ok tt.

End Ingest.

(** ** Vocabulary of the statements *)

(** The four facet fields. *)
Inductive facet : Type :=
  | Industry | Sector | Region | Currency.

Definition facet_name (f : facet) : string :=
  match f with
  | Industry => "industry"
  | Sector => "sector"
  | Region => "region"
  | Currency => "currency"
  end.

Definition facet_values (c : Criteria) (f : facet) : list string :=
  match f with
  | Industry => industry c
  | Sector => sector c
  | Region => region c
  | Currency => currency c
  end.

(** The terms clause on a field. *)
Definition terms_clause (field : string) (vals : value) : value :=
  PDict [("terms", PDict [(field, vals)])].

(** The filter clauses that are terms clauses on [field]. *)
Definition clauses_on (field : string) (filters : list value) : list value :=
  filter
    (fun clause =>
       match clause with
       | PDict d =>
           match dict_get d "terms" with
           | Some (PDict t) => dict_mem t field
           | _ => false
           end
       | _ => false
       end)
    filters.

(** What one round of the loop of [_criteria_filters] adds. *)
Definition facet_clause (criteria : dict) (field : string) : list value :=
  let vals := py_or (dict_get_default criteria field PNone) (PList []) in
  if py_truthy vals then [terms_clause field vals] else [].

(** A Criteria mapping without the keys outside the four facet fields. *)
Definition known_fields (criteria : dict) : dict :=
  filter
    (fun kv => existsb (String.eqb (fst kv)) ["industry"; "sector"; "region"; "currency"])
    criteria.

(** The clause a typed text query compiles to. *)
Definition text_clause (tq : TextQuery) : value :=
  PDict [("multi_match",
          PDict ([ ("query", PStr (tq_query tq));
                   ("fields", str_list (tq_fields tq));
                   ("type", PStr (match_type_str (tq_type tq)));
                   ("operator", PStr (operator_str (tq_operator tq))) ]
                 ++ (if SFeqb (tq_boost tq) float_one then []
                     else [("boost", PFloat (tq_boost tq))])))].

(** The boolean query node. *)
Definition bool_query (filters must should : list value) (msm : value) : value :=
  PDict [("bool", PDict [ ("filter", PList filters);
                          ("must", PList must);
                          ("should", PList should);
                          ("minimum_should_match", msm) ])].

(** The [minimum_should_match] of a compiled query. *)
Definition compiled_msm (q : value) : option value :=
  match q with
  | PDict d =>
      match dict_get d "bool" with
      | Some (PDict b) => dict_get b "minimum_should_match"
      | _ => None
      end
  | _ => None
  end.

(** The [should] clauses of a compiled query. *)
Definition compiled_should (q : value) : option value :=
  match q with
  | PDict d =>
      match dict_get d "bool" with
      | Some (PDict b) => dict_get b "should"
      | _ => None
      end
  | _ => None
  end.

(** The error payload of a well-formed item of a bulk response, if any. *)
Definition item_error (it : value) : list value :=
  match it with
  | PDict ((_, PDict action) :: _) =>
      match dict_get action "error" with
      | Some e => [e]
      | None => []
      end
  | _ => []
  end.

(** A well-formed item of a bulk response: an object whose first member is
    the object of the action. *)
Definition item_wf (it : value) : bool :=
  match it with
  | PDict ((_, PDict _) :: _) => true
  | _ => false
  end.

(** ** Inputs of the examples *)

(** A request for the examples: one facet value, one should clause. *)
Definition example_request : SearchRequest :=
  mkSearchRequest (mkCriteria ["Healthcare"] [] [] [])
    [mkTextQuery "fuel price" ["riskFactors"] best_fields op_or float_one] []
    1 5 0 true false None None None.

(** An engine that holds one memo, under the id [m1]. *)
Definition example_get (index doc_id : string) (source_includes : option (list string))
  : result value :=
  if String.eqb doc_id "m1"
  then Ok (PDict [("_id", PStr "m1"); ("found", PBool true)])
  else Raise NotFoundError.

(** An engine for the examples: it counts the documents it has written and
    rejects an action whose [_source] is not an object. *)
Definition example_write (written : nat) (action : value) : nat * option value :=
  match action with
  | PDict d =>
      match dict_get d "_source" with
      | Some (PDict _) => (S written, None)
      | _ =>
          (written,
           Some (PDict [("index",
                         PDict [ ("_id", dict_get_default d "_id" PNone);
                                 ("status", PInt 400);
                                 ("error", PStr "mapper_parsing_exception") ])]))
      end
  | _ => (written, Some PNone)
  end.

(** A batch of five documents, the second and the fifth malformed. *)
Definition example_docs : list (string * value) :=
  [ ("m1", PDict [("memoId", PStr "m1")]);
    ("m2", PStr "not a document");
    ("m3", PDict [("memoId", PStr "m3")]);
    ("m4", PDict [("memoId", PStr "m4")]);
    ("m5", PNone) ].

(** A bulk response for the examples: five items, the second one written,
    the others failed. *)
Definition example_bulk_response : value :=
  PDict [ ("took", PInt 3);
          ("errors", PBool true);
          ("items",
           PList [ PDict [("index", PDict [("_id", PStr "m1"); ("status", PInt 400);
                                           ("error", PStr "first")])];
                   PDict [("index", PDict [("_id", PStr "m2"); ("status", PInt 201)])];
                   PDict [("index", PDict [("_id", PStr "m3"); ("status", PInt 400);
                                           ("error", PStr "second")])];
                   PDict [("index", PDict [("_id", PStr "m4"); ("status", PInt 400);
                                           ("error", PStr "third")])];
                   PDict [("index", PDict [("_id", PStr "m5"); ("status", PInt 400);
                                           ("error", PStr "fourth")])] ]) ].

(** A bulk response with no failure. *)
Definition example_clean_response : value :=
  PDict [ ("took", PInt 3);
          ("errors", PBool false);
          ("items",
           PList [ PDict [("index", PDict [("_id", PStr "m1"); ("status", PInt 201)])] ]) ].

(** ** More of the client *)

Section ClientMore.

(** [self.index] *)
Variable index : string.

(** [self.client.search(index=..., body=...)] *)
Variable client_search : string -> value -> result value.

(** [self.client.search(index=..., body=..., scroll=...)] *)
Variable client_search_scroll : string -> value -> string -> result value.

(** [self.client.scroll(scroll_id=..., scroll=...)] *)
Variable client_scroll : string -> string -> result value.

(** [self.client.count(index=..., body=...)] *)
Variable client_count : string -> value -> result value.

(** The builtin [int(...)]. *)
Variable py_int : value -> result Z.

(** [MemoOpenSearchClient.build_agent_request]: the fields it does not set
    take the defaults of the models. *)
Definition build_agent_request (industry region currency query : list string)
    (size : Z) : SearchRequest :=
  let should_text :=
    map (fun q =>
           mkTextQuery q ["riskFactors"; "keyCommitteeDiscussionPoints"]
             best_fields op_or float_one)
        query in
  mkSearchRequest
    (mkCriteria industry [] region currency)
    should_text
    []
    1
    size
    0
    true
    false
    None None None.

(** [MemoOpenSearchClient.agent_search] *)
Definition agent_search (industry region currency query : list string) (size : Z)
  : result value :=
  let req := build_agent_request industry region currency query size in
  search index client_search (PDict (SearchRequest_dict req)) true None.

(** [MemoOpenSearchClient.search_with_scroll] *)
Definition search_with_scroll (request : value) (scroll : string) : result value :=
  query <- build_bool_query request ;;
  sz <- py_get request "size" (PInt 100) ;;
  tth <- py_get request "track_total_hits" (PBool true) ;;
  let body := [("query", query); ("size", sz); ("track_total_hits", tth)] in
  resp <- client_search_scroll index (PDict body) scroll ;;
  scroll_id <- py_get resp "_scroll_id" PNone ;;
  h <- py_get resp "hits" (PDict []) ;;
  hits <- py_get h "hits" (PList []) ;;
  Ok (PDict [ ("scroll_id", scroll_id);
              ("hits", hits);
              ("raw", resp);
              ("query", PDict body) ]).

(** [MemoOpenSearchClient.scroll_next] *)
Definition scroll_next (scroll_id scroll : string) : result value :=
  resp <- client_scroll scroll_id scroll ;;
  sid <- py_get resp "_scroll_id" PNone ;;
  h <- py_get resp "hits" (PDict []) ;;
  hits <- py_get h "hits" (PList []) ;;
  Ok (PDict [("scroll_id", sid); ("hits", hits); ("raw", resp)]).

(** [MemoOpenSearchClient.count] *)
Definition count (request : value) : result Z :=
  query <- build_bool_query request ;;
  resp <- client_count index (PDict [("query", query)]) ;;
  c <- py_get resp "count" (PInt 0) ;;
  py_int c.

End ClientMore.

(** ** More of the ingestion utility *)

Section IngestMore.

(** [OPENSEARCH_URL] and [MEMO_INDEX] *)
Variable OPENSEARCH_URL MEMO_INDEX : string.

(** [json.dumps(...)] *)
Variable json_dumps : value -> string.

(** The world the HTTP requests go to. *)
Variable World : Type.

(** [requests.request(method, url, headers=..., data=data, timeout=60)]:
    the world after the request, and the response or the exception. *)
Variable requests_request :
  World -> string -> string -> option string -> World * result Response.

(** [s.lstrip(c)] for one character [c]. *)
Fixpoint lstrip (c : ascii) (s : string) : string :=
  match s with
  | EmptyString => EmptyString
  | String a s' => if Ascii.eqb a c then lstrip c s' else String a s'
  end.

(** [os_request] *)
Definition os_request (w : World) (method path : string) (body : value)
  : World * result Response :=
  let url := (rstrip "/" OPENSEARCH_URL ++ "/" ++ lstrip "/" path)%string in
  let data := if is_not_none body then Some (json_dumps body) else None in
  requests_request w method url data.

(** The mapping [ensure_index] creates the index with. *)
Definition memo_mapping : value :=
  let keyword := PDict [("type", PStr "keyword")] in
  let text := PDict [("type", PStr "text")] in
  PDict
    [ ("settings", PDict [("number_of_shards", PInt 1); ("number_of_replicas", PInt 0)]);
      ("mappings",
       PDict
         [("properties",
           PDict
             [ ("memoId", keyword);
               ("clientName",
                PDict [ ("type", PStr "text");
                        ("fields", PDict [("keyword", PDict [("type", PStr "keyword")])]) ]);
               ("clientID", keyword);
               ("industry", keyword);
               ("sector", keyword);
               ("region", keyword);
               ("currency", keyword);
               ("businessDescription", text);
               ("executiveSummary", text);
               ("proposedCommitments", text);
               ("riskFactors", text);
               ("lendingThesis", text);
               ("environmentalRisks", text);
               ("keyCommitteeDiscussionPoints", text) ])]) ].

(** [resp.ok]: whether [raise_for_status] would return. *)
Definition response_ok (resp : Response) : bool :=
  match raise_for_status resp with
  | Ok _ => true
  | Raise _ => false
  end.

(** [ensure_index]: the world after it, the lines it printed, and whether
    it returned. *)
Definition ensure_index (w : World) : World * (list string * result unit) :=
  let (w1, r) := os_request w "HEAD" MEMO_INDEX PNone in
  match r with
  | Raise e => (w1, ([], Raise e))
  | Ok r =>
      if (status_code r =? 404)%Z
      then
        let (w2, cr) := os_request w1 "PUT" MEMO_INDEX memo_mapping in
        match cr with
        | Raise e => (w2, ([], Raise e))
        | Ok cr =>
            match raise_for_status cr with
            | Raise e => (w2, ([], Raise e))
            | Ok _ => (w2, (["Created index: " ++ MEMO_INDEX]%string, Ok tt))
            end
        end
      else if response_ok r
      then (w1, (["Index exists: " ++ MEMO_INDEX]%string, Ok tt))
      else (w1, ([], raise_for_status r))
  end.

(** [memo_to_bulk_lines] *)
Definition memo_to_bulk_lines (memo : value) : result (list string) :=
  memo_id <- py_getitem memo "memoId" ;;
  let lines := [] in
  let lines :=
    lines ++ [json_dumps (PDict [("index", PDict [("_index", PStr MEMO_INDEX);
                                                  ("_id", memo_id)])])] in
  let lines := lines ++ [json_dumps memo] in
  Ok lines.

End IngestMore.

Arguments os_request OPENSEARCH_URL json_dumps {World} requests_request w method path body.
Arguments ensure_index OPENSEARCH_URL MEMO_INDEX json_dumps {World} requests_request w.

(** The field of a terms clause. *)
Definition clause_field (clause : value) : option string :=
  match clause with
  | PDict d =>
      match dict_get d "terms" with
      | Some (PDict ((field, _) :: _)) => Some field
      | _ => None
      end
  | _ => None
  end.

(** A world for the examples: the requests made so far, latest first.  Its
    server knows the index once a [PUT] was made. *)
Definition example_world : Type := list (string * string * option string).

Definition example_server (w : example_world) (method url : string)
    (data : option string) : example_world * result Response :=
  let created :=
    existsb (fun rq => String.eqb (fst (fst rq)) "PUT") w in
  ((method, url, data) :: w,
   Ok (mkResponse
         (if String.eqb method "HEAD" then (if created then 200 else 404) else 200)%Z
         (Ok (PDict [("acknowledged", PBool true)])))).

(** The aggregation [search] asks for a facet field. *)
Definition facet_aggregation (f : string) : value :=
  PDict [("terms", PDict [("field", PStr f); ("size", PInt 50)])].

(** The facet fields [search] uses: the given ones, the default ones when
    none or an empty list is given. *)
Definition facet_fields_or_default (facet_fields : option (list string))
  : list string :=
  match facet_fields with
  | Some (f :: fs) => f :: fs
  | _ => DEFAULT_FACET_FIELDS
  end.

(** The filter clause of a facet field with the given values, if any. *)
Definition values_filter (field : string) (vals : list string) : list value :=
  match vals with
  | [] => []
  | _ :: _ => [terms_clause field (str_list vals)]
  end.

(** The should clause of a query string of [agent_search]. *)
Definition agent_clause (q : string) : value :=
  PDict [("multi_match",
          PDict [ ("query", PStr q);
                  ("fields", PList [PStr "riskFactors"; PStr "keyCommitteeDiscussionPoints"]);
                  ("type", PStr "best_fields");
                  ("operator", PStr "or") ])].

(** The entries of a request that [build_bool_query] reads. *)
Definition compiled_keys : list string :=
  ["criteria"; "must_text"; "should_text"; "minimum_should_match"].

(** An [int(...)] for the examples, defined on integers and booleans
    only. *)
Definition example_int (v : value) : result Z :=
  match v with
  | PInt z => Ok z
  | PBool b => Ok (if b then 1 else 0)%Z
  | _ => Raise TypeError
  end.


(** Bulk responses for the examples: three failed items followed by items
    that are no items, and an empty item between two failed ones. *)
Definition example_scan_items : list value :=
  [ PDict [("index", PDict [("error", PStr "first")])];
    PDict [("index", PDict [("error", PStr "second")])];
    PDict [("index", PDict [("error", PStr "third")])] ].

Definition example_scan_result : dict :=
  [ ("errors", PBool true);
    ("items", PList (example_scan_items ++ [PDict []; PStr "not an item"])) ].

Definition example_broken_result : dict :=
  [ ("errors", PBool true);
    ("items",
     PList ([PDict [("index", PDict [("error", PStr "first")])]]
            ++ PDict [] :: [PDict [("index", PDict [("error", PStr "second")])]])) ].

(** ** Dictionaries *)

Lemma dict_get_set_same (d : dict) (k : string) (v : value) :
  dict_get (dict_set d k v) k = Some v.
Proof.
  induction d as [|[k' v'] d IH]; simpl.
  - now rewrite String.eqb_refl.
  - destruct (String.eqb k' k) eqn:E; simpl; now rewrite E.
Qed.

Lemma dict_get_set_other (d : dict) (k k' : string) (v : value) :
  k <> k' -> dict_get (dict_set d k v) k' = dict_get d k'.
Proof.
  intros Hne. induction d as [|[k0 v0] d IH]; simpl.
  - destruct (String.eqb_spec k k'); [contradiction | reflexivity].
  - destruct (String.eqb_spec k0 k) as [->|Hk]; simpl.
    + destruct (String.eqb_spec k k'); [contradiction | reflexivity].
    + now rewrite IH.
Qed.

Lemma dict_get_del_same (d : dict) (k : string) :
  dict_get (dict_del d k) k = None.
Proof.
  induction d as [|[k' v'] d IH]; simpl; [reflexivity|].
  destruct (String.eqb k' k) eqn:E; simpl; [assumption|].
  now rewrite E.
Qed.

Lemma dict_get_del_other (d : dict) (k k' : string) :
  k <> k' -> dict_get (dict_del d k) k' = dict_get d k'.
Proof.
  intros Hne. induction d as [|[k0 v0] d IH]; simpl; [reflexivity|].
  destruct (String.eqb_spec k0 k) as [->|Hk]; simpl.
  - destruct (String.eqb_spec k k'); [contradiction | assumption].
  - now rewrite IH.
Qed.

Lemma dict_get_known_fields (d : dict) (k : string) :
  existsb (String.eqb k) ["industry"; "sector"; "region"; "currency"] = true ->
  dict_get (known_fields d) k = dict_get d k.
Proof.
  intros Hk. unfold known_fields.
  induction d as [|[k0 v0] d IH]; [reflexivity|].
  cbn [filter fst dict_get].
  destruct (String.eqb_spec k0 k) as [->|Hne].
  - rewrite Hk. cbn [dict_get]. now rewrite String.eqb_refl.
  - destruct (existsb (String.eqb k0) _); cbn [dict_get]; [|assumption].
    destruct (String.eqb_spec k0 k); [contradiction | assumption].
Qed.

Lemma py_or_dict (d : dict) : py_or (PDict d) (PDict []) = PDict d.
Proof. now destruct d. Qed.

Lemma py_or_list (l : list value) : py_or (PList l) (PList []) = PList l.
Proof. now destruct l. Qed.

(** A loop over a value that cannot be iterated raises [TypeError]. *)
Lemma py_iter_raises (v : value) (e : exn) :
  py_iter v = Raise e -> e = TypeError.
Proof. destruct v; cbn [py_iter]; now intros [= <-]. Qed.

(** ** The query compiler *)

(** [_criteria_filters] returns on every mapping: one round per facet
    field, in the order of the loop. *)
Lemma criteria_filters_dict (d : dict) :
  _criteria_filters (PDict d)
  = Ok (flat_map (facet_clause d) ["industry"; "sector"; "region"; "currency"]).
Proof.
  unfold _criteria_filters, facet_clause. cbn [for_in bind py_get flat_map].
  repeat match goal with
         | |- context [py_truthy (py_or ?a ?b)] =>
             destruct (py_truthy (py_or a b)); cbn [bind for_in app]
         end;
  reflexivity.
Qed.

(** [_multi_match_clause] on a mapping, key by key. *)
Lemma multi_match_clause_dict (tq : dict) :
  _multi_match_clause (PDict tq)
  = match dict_get tq "query" with
    | None => Raise (KeyError "query")
    | Some q =>
        match dict_get tq "fields" with
        | None => Raise (KeyError "fields")
        | Some fs =>
            let boost := dict_get_default tq "boost" PNone in
            Ok (PDict [("multi_match",
                        PDict ([ ("query", q); ("fields", fs);
                                 ("type", dict_get_default tq "type" (PStr "best_fields"));
                                 ("operator", dict_get_default tq "operator" (PStr "or")) ]
                               ++ (if is_not_none boost && negb (py_eq_float boost float_one)
                                   then [("boost", boost)] else [])))])
        end
    end.
Proof.
  unfold _multi_match_clause. cbn [py_getitem py_get bind].
  destruct (dict_get tq "query"); cbn [bind]; [|reflexivity].
  destruct (dict_get tq "fields"); cbn [bind]; [|reflexivity].
  destruct (is_not_none _ && _); reflexivity.
Qed.

(** A dumped text query always compiles. *)
Lemma multi_match_clause_typed (tq : TextQuery) :
  _multi_match_clause (PDict (TextQuery_dict tq)) = Ok (text_clause tq).
Proof.
  rewrite multi_match_clause_dict. destruct tq as [q fs ty op b].
  unfold text_clause, TextQuery_dict, dict_get_default.
  cbn [dict_get String.eqb Ascii.eqb Bool.eqb tq_query tq_fields tq_type
       tq_operator tq_boost is_not_none andb py_eq_float].
  now destruct (SFeqb b float_one).
Qed.

Lemma for_in_text_clauses (tqs : list TextQuery) (acc : list value) :
  for_in (map (fun tq => PDict (TextQuery_dict tq)) tqs)
    (fun clauses tq => cl <- _multi_match_clause tq ;; Ok (clauses ++ [cl])) acc
  = Ok (acc ++ map text_clause tqs).
Proof.
  revert acc. induction tqs as [|tq tqs IH]; intros acc; cbn [map for_in].
  - now rewrite app_nil_r.
  - rewrite multi_match_clause_typed. cbn [bind].
    rewrite IH, <- app_assoc. reflexivity.
Qed.

Lemma compile_clauses_typed (tqs : list TextQuery) :
  compile_clauses (py_or (PList (map (fun tq => PDict (TextQuery_dict tq)) tqs)) (PList []))
  = Ok (map text_clause tqs).
Proof.
  rewrite py_or_list. unfold compile_clauses. cbn [py_iter bind].
  apply for_in_text_clauses.
Qed.

(** The number of compiled clauses is the number of items looped over. *)
Lemma for_in_clauses_length (items acc clauses : list value) :
  for_in items
    (fun clauses tq => cl <- _multi_match_clause tq ;; Ok (clauses ++ [cl])) acc
  = Ok clauses ->
  List.length clauses = (List.length acc + List.length items)%nat.
Proof.
  revert acc. induction items as [|it items IH]; intros acc; cbn [for_in].
  - intros [= <-]. simpl. lia.
  - destruct (_multi_match_clause it) as [cl|e]; cbn [bind]; [|discriminate].
    intros H. apply IH in H. rewrite H, length_app. simpl. lia.
Qed.

(** [build_bool_query] on a request whose four entries are well typed. *)
Lemma build_bool_query_fields (request crit : dict)
    (must_tqs should_tqs : list TextQuery) (msm : value) :
  dict_get request "criteria" = Some (PDict crit) ->
  dict_get request "must_text"
    = Some (PList (map (fun tq => PDict (TextQuery_dict tq)) must_tqs)) ->
  dict_get request "should_text"
    = Some (PList (map (fun tq => PDict (TextQuery_dict tq)) should_tqs)) ->
  dict_get request "minimum_should_match" = Some msm ->
  build_bool_query (PDict request)
  = Ok (bool_query
          (flat_map (facet_clause crit) ["industry"; "sector"; "region"; "currency"])
          (map text_clause must_tqs)
          (map text_clause should_tqs)
          (match should_tqs with [] => PInt 0 | _ :: _ => msm end)).
Proof.
  intros Hc Hm Hs Hmsm.
  unfold build_bool_query. cbn [py_get bind]. unfold dict_get_default.
  rewrite Hc, py_or_dict, criteria_filters_dict. cbn [bind].
  rewrite Hm, compile_clauses_typed. cbn [bind].
  rewrite Hs, compile_clauses_typed. cbn [bind].
  rewrite Hmsm. now destruct should_tqs.
Qed.

(** On a raw request: with no should clause compiled the threshold is 0,
    otherwise it is the request's entry (1 when the request has none). *)
Lemma build_bool_query_msm_raw (request : dict) (q : value) :
  build_bool_query (PDict request) = Ok q ->
  exists should,
    compiled_should q = Some (PList should) /\
    compile_clauses (py_or (dict_get_default request "should_text" (PList [])) (PList []))
      = Ok should /\
    compiled_msm q
      = Some (match should with
              | [] => PInt 0
              | _ :: _ => dict_get_default request "minimum_should_match" (PInt 1)
              end).
Proof.
  unfold build_bool_query. cbn [py_get bind].
  destruct (_criteria_filters _) as [filters|e]; cbn [bind]; [|discriminate].
  destruct (compile_clauses _) as [must|e]; cbn [bind]; [|discriminate].
  destruct (compile_clauses _) as [should|e]; cbn [bind]; [|discriminate].
  intros [= <-]. exists should. repeat split.
  now destruct should.
Qed.

(** C1. For every search request, [build_bool_query] returns a boolean
    query with one should clause per entry of the should-list; its
    [minimum_should_match] is 0 when the should-list is empty, whatever the
    request's own value (any integer), and the request's own value,
    unchanged, when the should-list is not empty. *)
Theorem build_bool_query_minimum_should_match (r : SearchRequest) :
  exists q should,
    build_bool_query (PDict (SearchRequest_dict r)) = Ok q /\
    compiled_should q = Some (PList should) /\
    List.length should = List.length (should_text r) /\
    compiled_msm q
      = Some (PInt (match should_text r with
                    | [] => 0
                    | _ :: _ => minimum_should_match r
                    end)).
Proof.
  exists (bool_query
            (flat_map (facet_clause (Criteria_dict (criteria r)))
               ["industry"; "sector"; "region"; "currency"])
            (map text_clause (must_text r))
            (map text_clause (should_text r))
            (match should_text r with
             | [] => PInt 0
             | _ :: _ => PInt (minimum_should_match r)
             end)),
         (map text_clause (should_text r)).
  split; [|split; [|split]].
  - now apply build_bool_query_fields.
  - reflexivity.
  - apply length_map.
  - now destruct (should_text r).
Qed.

(** The scenario of the request of the examples: one filter clause, one
    should clause, threshold 1. *)
Example build_bool_query_example :
  build_bool_query (PDict (SearchRequest_dict example_request))
  = Ok (bool_query
          [terms_clause "industry" (PList [PStr "Healthcare"])]
          []
          [PDict [("multi_match",
                   PDict [ ("query", PStr "fuel price");
                           ("fields", PList [PStr "riskFactors"]);
                           ("type", PStr "best_fields");
                           ("operator", PStr "or") ])]]
          (PInt 1)).
Proof. reflexivity. Qed.

(** A negative and a large threshold, with no should clause. *)
Example build_bool_query_no_should_example :
  compiled_msm (bool_query [] [] [] (PInt 0)) = Some (PInt 0) /\
  build_bool_query (PDict [("minimum_should_match", PInt (-5))])
  = Ok (bool_query [] [] [] (PInt 0)) /\
  build_bool_query (PDict [("should_text", PList []);
                           ("minimum_should_match", PInt 1000000)])
  = Ok (bool_query [] [] [] (PInt 0)).
Proof. repeat split. Qed.

(** The filter list of a mapping has, for a facet field, the clause of
    that field's round and no other. *)
Lemma clauses_on_facet (d : dict) (f : facet) :
  clauses_on (facet_name f)
    (flat_map (facet_clause d) ["industry"; "sector"; "region"; "currency"])
  = facet_clause d (facet_name f).
Proof.
  unfold facet_clause. cbn [flat_map].
  destruct f; cbn [facet_name];
    repeat match goal with
           | |- context [py_truthy (py_or ?a ?b)] =>
               destruct (py_truthy (py_or a b))
           end;
    reflexivity.
Qed.

(** C2. For every Criteria and each of the four facet fields,
    [_criteria_filters] returns a filter list that has no clause on the
    field when the field's value list is empty, and exactly one clause on
    it, the terms clause with exactly the supplied values, when it is
    not. *)
Theorem criteria_filters_per_field (c : Criteria) (f : facet) :
  exists filters,
    _criteria_filters (PDict (Criteria_dict c)) = Ok filters /\
    clauses_on (facet_name f) filters
    = match facet_values c f with
      | [] => []
      | _ :: _ => [terms_clause (facet_name f) (str_list (facet_values c f))]
      end.
Proof.
  eexists. split; [apply criteria_filters_dict|].
  rewrite clauses_on_facet.
  destruct c as [i s r cu], f; cbn [facet_values facet_name industry sector region currency].
  - now destruct i.
  - now destruct s.
  - now destruct r.
  - now destruct cu.
Qed.

(** C3. For every text query specification, compiling it with [boost]
    set to [1.0] and compiling it with the [boost] key absent give the same
    result; when the specification has its [query] and [fields], both
    return the same [multi_match] clause, and that clause has no [boost]
    key. *)
Theorem multi_match_boost_equivalence (tq : dict) :
  _multi_match_clause (PDict (dict_set tq "boost" (PFloat float_one)))
  = _multi_match_clause (PDict (dict_del tq "boost"))
  /\
  (forall q fs,
      dict_get tq "query" = Some q ->
      dict_get tq "fields" = Some fs ->
      exists multi_match,
        _multi_match_clause (PDict (dict_set tq "boost" (PFloat float_one)))
          = Ok (PDict [("multi_match", PDict multi_match)]) /\
        _multi_match_clause (PDict (dict_del tq "boost"))
          = Ok (PDict [("multi_match", PDict multi_match)]) /\
        dict_mem multi_match "boost" = false).
Proof.
  assert (E : _multi_match_clause (PDict (dict_set tq "boost" (PFloat float_one)))
              = _multi_match_clause (PDict (dict_del tq "boost"))).
  { rewrite !multi_match_clause_dict. unfold dict_get_default.
    rewrite dict_get_set_same, dict_get_del_same.
    rewrite !dict_get_set_other, !dict_get_del_other by discriminate.
    reflexivity. }
  split; [exact E|].
  intros q fs Hq Hfs. rewrite E.
  rewrite multi_match_clause_dict. unfold dict_get_default.
  rewrite dict_get_del_same.
  rewrite !dict_get_del_other by discriminate.
  rewrite Hq, Hfs. eexists. repeat split.
Qed.

Lemma multi_match_boost_equivalence_witness :
  exists multi_match,
    _multi_match_clause
      (PDict (dict_set [("query", PStr "fuel price"); ("fields", PList [PStr "riskFactors"])]
                "boost" (PFloat float_one)))
      = Ok (PDict [("multi_match", PDict multi_match)]) /\
    _multi_match_clause
      (PDict (dict_del [("query", PStr "fuel price"); ("fields", PList [PStr "riskFactors"])]
                "boost"))
      = Ok (PDict [("multi_match", PDict multi_match)]) /\
    dict_mem multi_match "boost" = false.
Proof.
  apply (proj2 (multi_match_boost_equivalence
                  [("query", PStr "fuel price"); ("fields", PList [PStr "riskFactors"])])
           (PStr "fuel price") (PList [PStr "riskFactors"])); reflexivity.
Defined.

(** The typed side of the same fact: a text query whose boost is the
    default [1.0] compiles to a clause with no [boost] key. *)
Lemma text_clause_default_boost (tq : TextQuery) :
  tq_boost tq = float_one ->
  exists multi_match,
    _multi_match_clause (PDict (TextQuery_dict tq))
      = Ok (PDict [("multi_match", PDict multi_match)]) /\
    dict_mem multi_match "boost" = false.
Proof.
  intros Hb. rewrite multi_match_clause_typed. unfold text_clause.
  rewrite Hb. eexists. split; reflexivity.
Qed.

Lemma criteria_filters_known_fields (crit : dict) :
  _criteria_filters (PDict crit) = _criteria_filters (PDict (known_fields crit)).
Proof.
  rewrite !criteria_filters_dict. unfold facet_clause, dict_get_default.
  cbn [flat_map]. rewrite !dict_get_known_fields by reflexivity. reflexivity.
Qed.

(** C8. For every Criteria mapping, whatever keys it has beside the four
    facet fields: [_criteria_filters] returns, and returns what it returns
    on the mapping without those keys; a request compiles to the same
    result with the mapping and with the mapping without them; and a
    request that is otherwise a dumped search request compiles without an
    error. *)
Theorem unknown_criteria_keys_ignored (crit : dict) :
  (exists filters,
      _criteria_filters (PDict crit) = Ok filters /\
      _criteria_filters (PDict (known_fields crit)) = Ok filters)
  /\
  (forall request : dict,
      build_bool_query (PDict (dict_set request "criteria" (PDict crit)))
      = build_bool_query (PDict (dict_set request "criteria" (PDict (known_fields crit)))))
  /\
  (forall r : SearchRequest,
      exists q,
        build_bool_query (PDict (dict_set (SearchRequest_dict r) "criteria" (PDict crit)))
        = Ok q).
Proof.
  split; [|split].
  - eexists. split; [|rewrite <- criteria_filters_known_fields];
      apply criteria_filters_dict.
  - intros request. unfold build_bool_query. cbn [py_get bind].
    unfold dict_get_default.
    rewrite !dict_get_set_same, !py_or_dict, <- criteria_filters_known_fields.
    destruct (_criteria_filters (PDict crit)); cbn [bind]; [|reflexivity].
    rewrite !(dict_get_set_other request "criteria" "must_text") by discriminate.
    destruct (compile_clauses _); cbn [bind]; [|reflexivity].
    rewrite !(dict_get_set_other request "criteria" "should_text") by discriminate.
    destruct (compile_clauses _); cbn [bind]; [|reflexivity].
    rewrite !(dict_get_set_other request "criteria" "minimum_should_match") by discriminate.
    reflexivity.
  - intros r. eexists.
    apply (build_bool_query_fields _ crit (must_text r) (should_text r)
             (PInt (minimum_should_match r))); reflexivity.
Qed.

(** ** The search executor *)

Section SearchExecutor.

Context (index : string) (client_search : string -> value -> result value).

(** Once the payload is assembled and the engine has answered, [search]
    is the envelope of the answer. *)
Lemma search_answered (request : value) (facets : bool)
    (facet_fields : option (list string)) (body : dict) (resp : value) :
  search_body request facets facet_fields = Ok body ->
  client_search index (PDict body) = Ok resp ->
  search index client_search request facets facet_fields
  = search_envelope resp body.
Proof.
  intros Hb Hr. unfold search. rewrite Hb. cbn [bind]. now rewrite Hr.
Qed.

(** The envelope of a response with a [hits] object. *)
Lemma search_envelope_hits (resp h body : dict) :
  dict_get resp "hits" = Some (PDict h) ->
  search_envelope (PDict resp) body
  = Ok (PDict
          [ ("total",
             match dict_get_default h "total" (PDict []) with
             | PDict t => dict_get_default t "value" PNone
             | total => total
             end);
            ("hits", dict_get_default h "hits" (PList []));
            ("aggregations", dict_get_default resp "aggregations" (PDict []));
            ("raw", PDict resp);
            ("query", PDict body) ]).
Proof.
  intros Hh. unfold search_envelope. cbn [py_get bind].
  unfold dict_get_default at 1 2. rewrite Hh. cbn [py_get bind].
  now destruct (dict_get_default h "total" (PDict [])).
Qed.

(** C7. For every engine response whose [hits.total] is a bare integer
    [n], and for every response whose [hits.total] is a structure with
    [value] [n], the [total] of the envelope [search] returns is the
    integer [n]. *)
Theorem search_total_normalized (request : value) (facets : bool)
    (facet_fields : option (list string)) (body resp h : dict) (n : Z) :
  search_body request facets facet_fields = Ok body ->
  client_search index (PDict body) = Ok (PDict resp) ->
  dict_get resp "hits" = Some (PDict h) ->
  (dict_get h "total" = Some (PInt n) \/
   exists t, dict_get h "total" = Some (PDict t) /\
             dict_get t "value" = Some (PInt n)) ->
  exists env,
    search index client_search request facets facet_fields = Ok (PDict env) /\
    dict_get env "total" = Some (PInt n).
Proof.
  intros Hb Hr Hh Ht.
  rewrite (search_answered _ _ _ _ _ Hb Hr), (search_envelope_hits _ _ _ Hh).
  eexists. split; [reflexivity|]. cbn [dict_get String.eqb Ascii.eqb Bool.eqb].
  unfold dict_get_default.
  destruct Ht as [Ht | (t & Ht & Hv)]; rewrite Ht; [reflexivity|].
  now rewrite Hv.
Qed.

(** C10. For every engine response whose [hits] object has no [total],
    [search] returns an envelope with its five keys, and the [total] of
    the envelope is [None]. *)
Theorem search_total_absent (request : value) (facets : bool)
    (facet_fields : option (list string)) (body resp h : dict) :
  search_body request facets facet_fields = Ok body ->
  client_search index (PDict body) = Ok (PDict resp) ->
  dict_get resp "hits" = Some (PDict h) ->
  dict_get h "total" = None ->
  exists env,
    search index client_search request facets facet_fields = Ok (PDict env) /\
    map fst env = ["total"; "hits"; "aggregations"; "raw"; "query"] /\
    dict_get env "total" = Some PNone.
Proof.
  intros Hb Hr Hh Ht.
  rewrite (search_answered _ _ _ _ _ Hb Hr), (search_envelope_hits _ _ _ Hh).
  eexists. split; [reflexivity|]. split; [reflexivity|].
  cbn [dict_get String.eqb Ascii.eqb Bool.eqb].
  unfold dict_get_default at 1. now rewrite Ht.
Qed.

End SearchExecutor.

Lemma search_total_normalized_witness :
  (exists env,
      search "memo"
        (fun _ _ => Ok (PDict [("hits", PDict [("total", PInt 7); ("hits", PList [])])]))
        (PDict (SearchRequest_dict example_request)) true None = Ok (PDict env) /\
      dict_get env "total" = Some (PInt 7))
  /\
  (exists env,
      search "memo"
        (fun _ _ =>
           Ok (PDict [("hits",
                       PDict [("total", PDict [("value", PInt 7); ("relation", PStr "eq")]);
                              ("hits", PList [])])]))
        (PDict (SearchRequest_dict example_request)) true None = Ok (PDict env) /\
      dict_get env "total" = Some (PInt 7)).
Proof.
  split.
  - eapply (search_total_normalized "memo" _ _ true None).
    + vm_compute. reflexivity.
    + reflexivity.
    + reflexivity.
    + left. reflexivity.
  - eapply (search_total_normalized "memo" _ _ true None).
    + vm_compute. reflexivity.
    + reflexivity.
    + reflexivity.
    + right. eexists. split; reflexivity.
Defined.

Lemma search_total_absent_witness :
  exists env,
    search "memo" (fun _ _ => Ok (PDict [("hits", PDict [("hits", PList [])])]))
      (PDict (SearchRequest_dict example_request)) true None = Ok (PDict env) /\
    map fst env = ["total"; "hits"; "aggregations"; "raw"; "query"] /\
    dict_get env "total" = Some PNone.
Proof.
  eapply (search_total_absent "memo" _ _ true None).
  - vm_compute. reflexivity.
  - reflexivity.
  - reflexivity.
  - reflexivity.
Defined.

(** ** Lookup by id *)

(** C9. For every document id: when the engine reports no record
    ([NotFoundError]), [get_memo] returns [None]; when the engine returns a
    record, [get_memo] returns that record; and in no case does [get_memo]
    raise [NotFoundError]. *)
Theorem get_memo_absent_or_record (index : string)
    (client_get : string -> string -> option (list string) -> result value)
    (doc_id : string) (source_includes : option (list string)) :
  (client_get index doc_id source_includes = Raise NotFoundError ->
   get_memo index client_get doc_id source_includes = Ok PNone)
  /\
  (forall record,
      client_get index doc_id source_includes = Ok record ->
      get_memo index client_get doc_id source_includes = Ok record)
  /\
  get_memo index client_get doc_id source_includes <> Raise NotFoundError.
Proof.
  unfold get_memo.
  destruct (client_get index doc_id source_includes) as [record|e].
  - repeat split; [discriminate | now intros ? [= <-] | discriminate].
  - destruct e; repeat split; try discriminate; reflexivity.
Qed.

Lemma get_memo_absent_or_record_witness :
  get_memo "memo" example_get "m2" None = Ok PNone /\
  get_memo "memo" example_get "m1" None
  = Ok (PDict [("_id", PStr "m1"); ("found", PBool true)]).
Proof.
  split.
  - apply (proj1 (get_memo_absent_or_record "memo" example_get "m2" None)).
    reflexivity.
  - apply (proj1 (proj2 (get_memo_absent_or_record "memo" example_get "m1" None))).
    reflexivity.
Defined.

(** ** Bulk upsert *)

Section BulkUpsert.

Context (index : string) (Engine : Type)
        (engine_write : Engine -> value -> Engine * option value).

Lemma client_bulk_app (st : Engine) (a b : list value) :
  client_bulk engine_write st (a ++ b)
  = let (st1, items1) := client_bulk engine_write st a in
    let (st2, items2) := client_bulk engine_write st1 b in
    (st2, items1 ++ items2).
Proof.
  revert st. induction a as [|x a IH]; intros st; cbn [app client_bulk].
  - now destruct (client_bulk engine_write st b).
  - destruct (engine_write st x) as [st1 item]. rewrite IH.
    destruct (client_bulk engine_write st1 a) as [st2 items1].
    now destruct (client_bulk engine_write st2 b).
Qed.

Lemma client_bulk_length (st : Engine) (actions : list value) :
  List.length (snd (client_bulk engine_write st actions)) = List.length actions.
Proof.
  revert st. induction actions as [|x a IH]; intros st; cbn [client_bulk].
  - reflexivity.
  - destruct (engine_write st x) as [st1 item]. specialize (IH st1).
    destruct (client_bulk engine_write st1 a). simpl in *. now rewrite IH.
Qed.

Lemma item_successes_app (a b : list (option value)) :
  item_successes (a ++ b) = (item_successes a + item_successes b)%Z.
Proof.
  unfold item_successes. rewrite filter_app, length_app. lia.
Qed.

Lemma item_errors_app (a b : list (option value)) :
  item_errors (a ++ b) = item_errors a ++ item_errors b.
Proof. apply flat_map_app. Qed.

(** Every item is a success marker or an error descriptor. *)
Lemma items_partition (items : list (option value)) :
  (item_successes items + Z.of_nat (List.length (item_errors items)))%Z
  = Z.of_nat (List.length items).
Proof.
  unfold item_successes, item_errors.
  induction items as [|[e|] items IH];
    cbn [filter flat_map app List.length] in *; lia.
Qed.

(** Chunking regroups the actions: it loses, adds and reorders none. *)
Lemma chunk_actions_concat (chunk_size : Z) (actions bulk_actions : list value) :
  List.concat (chunk_actions chunk_size actions bulk_actions) = bulk_actions ++ actions.
Proof.
  revert bulk_actions.
  induction actions as [|x actions IH]; intros bulk_actions; cbn [chunk_actions].
  - destruct bulk_actions; simpl; now rewrite ?app_nil_r.
  - destruct bulk_actions as [|b bs].
    + now rewrite IH.
    + destruct (Z.of_nat (List.length (b :: bs)) =? chunk_size)%Z.
      * cbn [List.concat]. now rewrite IH.
      * now rewrite IH, <- app_assoc.
Qed.

(** With a positive chunk size no request has more actions than that. *)
Lemma chunk_actions_bounded (chunk_size : Z) (actions bulk_actions : list value) :
  (0 < chunk_size)%Z ->
  (Z.of_nat (List.length bulk_actions) <= chunk_size)%Z ->
  Forall (fun chunk => (Z.of_nat (List.length chunk) <= chunk_size)%Z)
    (chunk_actions chunk_size actions bulk_actions).
Proof.
  intros Hpos. revert bulk_actions.
  induction actions as [|x actions IH]; intros bulk_actions Hlen; cbn [chunk_actions].
  - destruct bulk_actions; auto.
  - destruct bulk_actions as [|b bs].
    + apply IH. simpl. lia.
    + destruct (Z.eqb_spec (Z.of_nat (List.length (b :: bs))) chunk_size).
      * constructor; [assumption|]. apply IH. simpl. lia.
      * apply IH. rewrite length_app. simpl in *. lia.
Qed.

(** Without [raise_on_error], submitting the chunks one after the other
    is handling all their actions in order. *)
Lemma submit_chunks_lenient (chunks sent : list (list value)) (st : Engine)
    (success : Z) (errors : list value) :
  submit_chunks engine_write st chunks sent false success errors
  = let run := client_bulk engine_write st (List.concat chunks) in
    (fst run, sent ++ chunks,
     Ok ((success + item_successes (snd run))%Z, errors ++ item_errors (snd run))).
Proof.
  revert sent st success errors.
  induction chunks as [|chunk chunks IH]; intros sent st success errors.
  - cbn. now rewrite Z.add_0_r, !app_nil_r.
  - cbn [submit_chunks List.concat]. rewrite client_bulk_app.
    destruct (client_bulk engine_write st chunk) as [st' items].
    assert (IH' := IH (sent ++ [chunk]) st'
                     (success + item_successes items)%Z
                     (errors ++ item_errors items)).
    destruct (client_bulk engine_write st' (List.concat chunks)) as [st2 items2].
    cbn [fst snd] in *.
    rewrite item_successes_app, item_errors_app, Z.add_assoc, app_assoc.
    rewrite <- app_assoc in IH'. cbn [app] in IH'.
    destruct (item_errors items) as [|e es] eqn:E.
    + rewrite app_nil_r in IH'. rewrite app_nil_r. exact IH'.
    + exact IH'.
Qed.

(** What [bulk_upsert] returns, for every chunk size: the outcome of
    handling the documents' actions in order. *)
Lemma bulk_upsert_outcome (st : Engine) (docs : list (string * value))
    (chunk_size : Z) :
  bulk_upsert index engine_write st docs chunk_size
  = let run := client_bulk engine_write st (gen_actions index docs) in
    (fst run,
     chunk_actions chunk_size (gen_actions index docs) [],
     Ok (PDict [ ("success", PInt (item_successes (snd run)));
                 ("errors", PList (item_errors (snd run))) ])).
Proof.
  unfold bulk_upsert, helpers_bulk. rewrite submit_chunks_lenient.
  rewrite chunk_actions_concat. reflexivity.
Qed.

(** C4. For every batch of (doc_id, document) pairs and every chunk
    size, [bulk_upsert] returns an outcome and raises nothing, however
    many documents fail: the requests it made hold all the actions of the
    batch, in order; [success] is the number of documents written,
    [errors] is the list of the error descriptors of all the documents
    that failed, and the two account for every document. *)
Theorem bulk_upsert_lenient (st : Engine) (docs : list (string * value))
    (chunk_size : Z) :
  let items := snd (client_bulk engine_write st (gen_actions index docs)) in
  exists st' sent,
    bulk_upsert index engine_write st docs chunk_size
    = (st', sent,
       Ok (PDict [ ("success", PInt (item_successes items));
                   ("errors", PList (item_errors items)) ])) /\
    List.concat sent = gen_actions index docs /\
    List.length items = List.length docs /\
    (item_successes items + Z.of_nat (List.length (item_errors items)))%Z
    = Z.of_nat (List.length docs).
Proof.
  intros items. do 2 eexists. split; [apply bulk_upsert_outcome|].
  assert (Hlen : List.length items = List.length docs).
  { unfold items. rewrite client_bulk_length. apply length_map. }
  split; [apply chunk_actions_concat|]. split; [exact Hlen|].
  now rewrite items_partition, Hlen.
Qed.

(** C6. For every batch of documents and every two positive chunk
    sizes, [bulk_upsert] returns the same outcome, the same success count
    and the same list of errors, and leaves the engine in the same state;
    only the grouping of the actions in requests differs, each request
    within its chunk size. *)
Theorem bulk_upsert_chunk_size_irrelevant (st : Engine)
    (docs : list (string * value)) (c1 c2 : Z) :
  (0 < c1)%Z -> (0 < c2)%Z ->
  let r1 := bulk_upsert index engine_write st docs c1 in
  let r2 := bulk_upsert index engine_write st docs c2 in
  (exists outcome, snd r1 = Ok outcome /\ snd r2 = Ok outcome) /\
  fst (fst r1) = fst (fst r2) /\
  List.concat (snd (fst r1)) = List.concat (snd (fst r2)) /\
  Forall (fun chunk => (Z.of_nat (List.length chunk) <= c1)%Z) (snd (fst r1)) /\
  Forall (fun chunk => (Z.of_nat (List.length chunk) <= c2)%Z) (snd (fst r2)).
Proof.
  intros H1 H2 r1 r2. unfold r1, r2. rewrite !bulk_upsert_outcome.
  cbn [fst snd]. rewrite !chunk_actions_concat.
  split; [eexists; split; reflexivity|].
  repeat split; apply chunk_actions_bounded; simpl; lia.
Qed.

End BulkUpsert.

Example bulk_upsert_example :
  snd (bulk_upsert "memo" example_write 0%nat example_docs 2)
  = Ok (PDict
          [ ("success", PInt 3);
            ("errors",
             PList
               [ PDict [("index", PDict [ ("_id", PStr "m2"); ("status", PInt 400);
                                          ("error", PStr "mapper_parsing_exception") ])];
                 PDict [("index", PDict [ ("_id", PStr "m5"); ("status", PInt 400);
                                          ("error", PStr "mapper_parsing_exception") ])] ]) ]).
Proof. reflexivity. Qed.

(** The two chunk sizes of the example do give different requests: three
    with chunks of 2, one with chunks of 500. *)
Example bulk_upsert_requests_example :
  List.length (snd (fst (bulk_upsert "memo" example_write 0%nat example_docs 2))) = 3%nat /\
  List.length (snd (fst (bulk_upsert "memo" example_write 0%nat example_docs 500))) = 1%nat.
Proof. split; reflexivity. Qed.

(** With [raise_on_error], which [bulk_upsert] turns off, the same batch
    raises at the first chunk with a failure. *)
Example helpers_bulk_raise_on_error_example :
  exists errors,
    snd (helpers_bulk example_write 0%nat (gen_actions "memo" example_docs) 2 true)
    = Raise (BulkIndexError errors).
Proof. eexists. reflexivity. Qed.

Lemma bulk_upsert_chunk_size_irrelevant_witness :
  let r1 := bulk_upsert "memo" example_write 0%nat example_docs 2 in
  let r2 := bulk_upsert "memo" example_write 0%nat example_docs 500 in
  (exists outcome, snd r1 = Ok outcome /\ snd r2 = Ok outcome) /\
  fst (fst r1) = fst (fst r2) /\
  List.concat (snd (fst r1)) = List.concat (snd (fst r2)) /\
  Forall (fun chunk => (Z.of_nat (List.length chunk) <= 2)%Z) (snd (fst r1)) /\
  Forall (fun chunk => (Z.of_nat (List.length chunk) <= 500)%Z) (snd (fst r2)).
Proof.
  apply (bulk_upsert_chunk_size_irrelevant "memo" nat example_write 0%nat
           example_docs 2 500); lia.
Defined.

(** ** The strict bulk path *)

Section StrictBulk.

Context (OPENSEARCH_URL : string)
        (requests_post : string -> string -> result Response).

(** The loop keeps fewer than three errors while it runs, so it never
    returns more than three. *)
Lemma collect_errors_bounded (items errors sample : list value) :
  (List.length errors < 3)%nat ->
  collect_errors items errors = Ok sample ->
  (List.length sample <= 3)%nat.
Proof.
  revert errors. induction items as [|it items IH]; intros errors Hlen;
    cbn [collect_errors].
  - intros [= <-]. lia.
  - destruct (first_value it) as [action|e]; cbn [bind]; [|discriminate].
    destruct (py_contains action "error") as [[|]|e]; cbn [bind]; [| |discriminate].
    + destruct (py_getitem action "error") as [e|e]; cbn [bind]; [|discriminate].
      destruct (Nat.leb_spec 3 (List.length (errors ++ [e]))) as [Hge|Hlt].
      * intros [= <-]. rewrite length_app in *. simpl in *. lia.
      * now apply IH.
    + destruct (Nat.leb_spec 3 (List.length errors)) as [Hge|Hlt]; [lia|].
      now apply IH.
Qed.

(** What the loop raises is never the [RuntimeError] of [bulk_index]. *)
Lemma collect_errors_raises (items acc : list value) (e : exn) :
  collect_errors items acc = Raise e -> forall sample, e <> RuntimeError sample.
Proof.
  revert acc. induction items as [|it items IH]; intros acc; cbn [collect_errors].
  - discriminate.
  - destruct (first_value it) as [action|e0] eqn:Ef; cbn [bind].
    2:{ intros [= <-].
        destruct it as [| | | | | |[|[k v] rest]]; cbn in Ef; inversion Ef;
          intros ?; discriminate. }
    destruct (py_contains action "error") as [has|e0] eqn:Ec; cbn [bind].
    2:{ intros [= <-].
        destruct action; cbn [py_contains] in Ec; inversion Ec;
          intros ?; discriminate. }
    destruct has; cbn [bind].
    + destruct (py_getitem action "error") as [x|e0] eqn:Eg; cbn [bind].
      2:{ intros [= <-]. unfold py_getitem in Eg.
          destruct action; try (inversion Eg; intros ?; discriminate).
          destruct (dict_get d "error"); inversion Eg; intros ?; discriminate. }
      destruct (Nat.leb 3 (List.length (acc ++ [x])));
        [intros H; discriminate H | apply IH].
    + destruct (Nat.leb 3 (List.length acc));
        [intros H; discriminate H | apply IH].
Qed.

(** On well-formed items the loop returns the first three error
    payloads, in the order of the items. *)
Lemma collect_errors_wf (items errors : list value) :
  forallb item_wf items = true ->
  (List.length errors < 3)%nat ->
  collect_errors items errors
  = Ok (firstn 3 (errors ++ flat_map item_error items)).
Proof.
  revert errors. induction items as [|it items IH]; intros errors Hwf Hlen.
  - cbn [collect_errors flat_map]. rewrite app_nil_r, firstn_all2 by lia.
    reflexivity.
  - cbn [forallb] in Hwf. apply andb_true_iff in Hwf as [Hit Hwf].
    destruct it as [| | | | | |[|[k [| | | | | |action]] rest]]; try discriminate.
    cbn [collect_errors first_value bind py_contains flat_map item_error].
    unfold dict_mem, py_getitem.
    destruct (dict_get action "error") as [e|]; cbn [bind app].
    + destruct (Nat.leb_spec 3 (List.length (errors ++ [e]))) as [Hge|Hlt].
      * assert (Hthree : List.length (errors ++ [e]) = 3%nat).
        { rewrite length_app in *. cbn [List.length] in *. lia. }
        replace (errors ++ e :: flat_map item_error items)
          with ((errors ++ [e]) ++ flat_map item_error items)
          by now rewrite <- app_assoc.
        rewrite firstn_app, Hthree, Nat.sub_diag, <- Hthree, firstn_all.
        cbn [firstn]. now rewrite app_nil_r.
      * rewrite IH by assumption. now rewrite <- app_assoc.
    + destruct (Nat.leb_spec 3 (List.length errors)) as [Hge|Hlt]; [lia|].
      now apply IH.
Qed.

(** C5. For every NDJSON batch the engine answers with a bulk response:
    when the [errors] flag of the response is not set, [bulk_index]
    returns; when it is set, [bulk_index] raises, a [RuntimeError] it
    raises carries at most 3 error payloads, and on a response with
    well-formed items it raises the [RuntimeError] whose sample is the
    error payloads of the first 3 failing items, in their order. *)
Theorem bulk_index_strict (ndjson_lines : list string) (resp : Response)
    (result : dict) :
  requests_post (rstrip "/" OPENSEARCH_URL ++ "/_bulk")%string
                (String.concat newline ndjson_lines ++ newline)%string
    = Ok resp ->
  raise_for_status resp = Ok tt ->
  json resp = Ok (PDict result) ->
  (py_truthy (dict_get_default result "errors" PNone) = false ->
   bulk_index OPENSEARCH_URL requests_post ndjson_lines = Ok tt)
  /\
  (py_truthy (dict_get_default result "errors" PNone) = true ->
   (exists e, bulk_index OPENSEARCH_URL requests_post ndjson_lines = Raise e) /\
   (forall sample,
       bulk_index OPENSEARCH_URL requests_post ndjson_lines
         = Raise (RuntimeError sample) ->
       (List.length sample <= 3)%nat) /\
   (forall items,
       dict_get result "items" = Some (PList items) ->
       forallb item_wf items = true ->
       bulk_index OPENSEARCH_URL requests_post ndjson_lines
       = Raise (RuntimeError (firstn 3 (flat_map item_error items))))).
Proof.
  intros Hpost Hstatus Hjson. unfold bulk_index.
  rewrite Hpost. cbn [bind]. rewrite Hstatus. cbn [bind].
  rewrite Hjson. cbn [bind py_get].
  split; intros Hflag; rewrite Hflag; [reflexivity|].
  split; [|split].
  - destruct (py_iter _) as [items|e]; cbn [bind]; [|now eexists].
    destruct (collect_errors items []); cbn [bind]; now eexists.
  - intros sample.
    destruct (py_iter _) as [items|e] eqn:Ei; cbn [bind].
    2:{ apply py_iter_raises in Ei as ->. discriminate. }
    destruct (collect_errors items []) as [errors|e] eqn:E; cbn [bind];
      [|intros [= ->]].
    + intros [= <-].
      apply (collect_errors_bounded items [] errors); [simpl; lia|exact E].
    + exfalso. exact (collect_errors_raises _ _ _ E sample eq_refl).
  - intros items Hitems Hwf. unfold dict_get_default. rewrite Hitems.
    cbn [py_iter bind]. rewrite collect_errors_wf by (assumption || (simpl; lia)).
    reflexivity.
Qed.

End StrictBulk.

Lemma bulk_index_strict_witness :
  bulk_index "http://localhost:9200"
    (fun _ _ => Ok (mkResponse 200 (Ok example_bulk_response))) ["{}"; "{}"]
  = Raise (RuntimeError [PStr "first"; PStr "second"; PStr "third"])
  /\
  bulk_index "http://localhost:9200"
    (fun _ _ => Ok (mkResponse 200 (Ok example_clean_response))) ["{}"; "{}"]
  = Ok tt.
Proof.
  split.
  - refine (proj2 (proj2 (proj2
              (bulk_index_strict "http://localhost:9200"
                 (fun _ _ => Ok (mkResponse 200 (Ok example_bulk_response)))
                 ["{}"; "{}"] (mkResponse 200 (Ok example_bulk_response)) _
                 eq_refl eq_refl eq_refl) eq_refl)) _ eq_refl eq_refl).
  - refine (proj1
              (bulk_index_strict "http://localhost:9200"
                 (fun _ _ => Ok (mkResponse 200 (Ok example_clean_response)))
                 ["{}"; "{}"] (mkResponse 200 (Ok example_clean_response)) _
                 eq_refl eq_refl eq_refl) eq_refl).
Defined.

(** ** More on the query compiler *)

Lemma py_truthy_or_list (v : value) :
  py_truthy (py_or v (PList [])) = py_truthy v.
Proof. unfold py_or. now destruct (py_truthy v) eqn:E. Qed.

Lemma py_or_truthy (v w : value) : py_truthy v = true -> py_or v w = v.
Proof. unfold py_or. now intros ->. Qed.

Lemma py_or_falsy (v w : value) : py_truthy v = false -> py_or v w = w.
Proof. unfold py_or. now intros ->. Qed.

(** X1. For every criteria mapping, [_criteria_filters] returns, and the
    fields of the clauses it returns are the facet fields with a truthy
    value, in the order industry, sector, region, currency, whatever the
    order of the keys in the mapping; a field that is missing, [None] or
    empty gives no clause. *)
Theorem criteria_filters_order (d : dict) :
  exists filters,
    _criteria_filters (PDict d) = Ok filters /\
    map clause_field filters
    = map Some
        (filter (fun field => py_truthy (dict_get_default d field PNone))
           ["industry"; "sector"; "region"; "currency"]).
Proof.
  eexists. split; [apply criteria_filters_dict|].
  unfold facet_clause. cbn [flat_map filter].
  rewrite !py_truthy_or_list.
  repeat match goal with
         | |- context [py_truthy (dict_get_default d ?f PNone)] =>
             destruct (py_truthy (dict_get_default d f PNone))
         end;
  reflexivity.
Qed.

(** X2. A [criteria] entry of the request that is falsy ([None], an empty
    mapping) or absent compiles like no criteria, with an empty filter
    list; one that is truthy and not a mapping makes [build_bool_query]
    raise [AttributeError]. *)
Theorem build_bool_query_criteria_entry (request : dict) :
  (py_truthy (dict_get_default request "criteria" PNone) = false ->
   forall q, build_bool_query (PDict request) = Ok q ->
             exists must should msm, q = bool_query [] must should msm)
  /\
  (py_truthy (dict_get_default request "criteria" PNone) = true ->
   is_dict (dict_get_default request "criteria" PNone) = false ->
   build_bool_query (PDict request) = Raise AttributeError).
Proof.
  unfold build_bool_query. cbn [py_get bind]. split.
  - intros Hf q. rewrite (py_or_falsy _ _ Hf), criteria_filters_dict.
    cbn [bind flat_map facet_clause app].
    destruct (compile_clauses _) as [must|e]; cbn [bind]; [|discriminate].
    destruct (compile_clauses _) as [should|e]; cbn [bind]; [|discriminate].
    intros [= <-]. now do 3 eexists.
  - intros Ht Hd. rewrite (py_or_truthy _ _ Ht).
    now destruct (dict_get_default request "criteria" PNone).
Qed.

Lemma build_bool_query_criteria_entry_witness :
  (exists must should msm,
      bool_query [] [] [] (PInt 0) = bool_query [] must should msm)
  /\
  build_bool_query (PDict [("criteria", PStr "Healthcare")]) = Raise AttributeError.
Proof.
  split.
  - apply (proj1 (build_bool_query_criteria_entry [("criteria", PNone)]));
      reflexivity.
  - apply (proj2 (build_bool_query_criteria_entry [("criteria", PStr "Healthcare")]));
      reflexivity.
Defined.

(** X3. [_multi_match_clause] raises [KeyError] on [query] when the text
    query has no [query], also when [fields] is missing too; [KeyError] on
    [fields] when only that is missing; and [TypeError] when the text query
    is not a mapping. *)
Theorem multi_match_clause_errors :
  (forall tq : dict,
      dict_get tq "query" = None ->
      _multi_match_clause (PDict tq) = Raise (KeyError "query"))
  /\
  (forall (tq : dict) q,
      dict_get tq "query" = Some q ->
      dict_get tq "fields" = None ->
      _multi_match_clause (PDict tq) = Raise (KeyError "fields"))
  /\
  (forall tq : value,
      is_dict tq = false -> _multi_match_clause tq = Raise TypeError).
Proof.
  split; [|split].
  - intros tq Hq. now rewrite multi_match_clause_dict, Hq.
  - intros tq q Hq Hf. now rewrite multi_match_clause_dict, Hq, Hf.
  - intros tq Hd. now destruct tq.
Qed.

Lemma multi_match_clause_errors_witness :
  _multi_match_clause (PDict [("boost", PInt 2)]) = Raise (KeyError "query") /\
  _multi_match_clause (PDict [("query", PStr "fuel")]) = Raise (KeyError "fields") /\
  _multi_match_clause (PStr "fuel") = Raise TypeError.
Proof.
  destruct multi_match_clause_errors as (H1 & H2 & H3).
  split; [|split].
  - apply H1. reflexivity.
  - apply (H2 _ (PStr "fuel")); reflexivity.
  - apply H3. reflexivity.
Defined.

(** X4. A text query with its [query] and [fields] compiles to a
    [multi_match] clause that carries them as they are, [type] and
    [operator] as given or [best_fields] and [or] by default, and a [boost]
    key exactly when the boost is given, is not [None] and differs from
    [1.0]; the key then holds the given boost. *)
Theorem multi_match_clause_content (tq : dict) (q fs : value) :
  dict_get tq "query" = Some q ->
  dict_get tq "fields" = Some fs ->
  exists multi_match,
    _multi_match_clause (PDict tq) = Ok (PDict [("multi_match", PDict multi_match)]) /\
    dict_get multi_match "query" = Some q /\
    dict_get multi_match "fields" = Some fs /\
    dict_get multi_match "type"
      = Some (dict_get_default tq "type" (PStr "best_fields")) /\
    dict_get multi_match "operator"
      = Some (dict_get_default tq "operator" (PStr "or")) /\
    dict_get multi_match "boost"
      = (let boost := dict_get_default tq "boost" PNone in
         if is_not_none boost && negb (py_eq_float boost float_one)
         then Some boost else None).
Proof.
  intros Hq Hf. rewrite multi_match_clause_dict, Hq, Hf. cbv zeta.
  eexists. split; [reflexivity|].
  destruct (is_not_none _ && _); repeat split.
Qed.

Lemma multi_match_clause_content_witness :
  exists multi_match,
    _multi_match_clause
      (PDict [("query", PStr "fuel"); ("fields", PList [PStr "riskFactors"]);
              ("boost", PInt 2)])
      = Ok (PDict [("multi_match", PDict multi_match)]) /\
    dict_get multi_match "query" = Some (PStr "fuel") /\
    dict_get multi_match "fields" = Some (PList [PStr "riskFactors"]) /\
    dict_get multi_match "type" = Some (PStr "best_fields") /\
    dict_get multi_match "operator" = Some (PStr "or") /\
    dict_get multi_match "boost" = Some (PInt 2).
Proof.
  apply (multi_match_clause_content
           [("query", PStr "fuel"); ("fields", PList [PStr "riskFactors"]);
            ("boost", PInt 2)]
           (PStr "fuel") (PList [PStr "riskFactors"])); reflexivity.
Defined.

(** X5. A dumped search request compiles to a boolean query whose [must]
    and [should] lists are the clauses of the request's [must_text] and
    [should_text], one per entry and in the same order. *)
Theorem build_bool_query_clause_lists (r : SearchRequest) :
  exists filters msm,
    build_bool_query (PDict (SearchRequest_dict r))
    = Ok (bool_query filters
            (map text_clause (must_text r))
            (map text_clause (should_text r))
            msm).
Proof.
  do 2 eexists.
  now apply (build_bool_query_fields _ (Criteria_dict (criteria r))
               (must_text r) (should_text r) (PInt (minimum_should_match r))).
Qed.

(** X6. A raw request that compiles and has no [minimum_should_match]
    gets the threshold 1 when it has a should clause, and 0 when it has
    none. *)
Theorem build_bool_query_msm_default (request : dict) (q : value) :
  build_bool_query (PDict request) = Ok q ->
  dict_get request "minimum_should_match" = None ->
  compiled_msm q
  = Some (match compiled_should q with
          | Some (PList (_ :: _)) => PInt 1
          | _ => PInt 0
          end).
Proof.
  intros Hq Hm. destruct (build_bool_query_msm_raw _ _ Hq) as (should & Hs & _ & Hmsm).
  rewrite Hmsm, Hs. unfold dict_get_default. rewrite Hm. now destruct should.
Qed.

Lemma build_bool_query_msm_default_witness :
  compiled_msm
    (bool_query [] []
       [PDict [("multi_match",
                PDict [ ("query", PStr "fuel"); ("fields", PList [PStr "riskFactors"]);
                        ("type", PStr "best_fields"); ("operator", PStr "or") ])]]
       (PInt 1))
  = Some (PInt 1).
Proof.
  apply (build_bool_query_msm_default
           [("should_text",
             PList [PDict [("query", PStr "fuel"); ("fields", PList [PStr "riskFactors"])]])]);
    reflexivity.
Defined.

Lemma for_in_clauses_raise (pre post : list value) (bad : value) (e : exn)
    (acc : list value) :
  Forall (fun tq => exists c, _multi_match_clause tq = Ok c) pre ->
  _multi_match_clause bad = Raise e ->
  for_in (pre ++ bad :: post)
    (fun clauses tq => cl <- _multi_match_clause tq ;; Ok (clauses ++ [cl])) acc
  = Raise e.
Proof.
  intros Hpre Hbad. revert acc.
  induction Hpre as [|tq pre [c Hc] _ IH]; intros acc; cbn [app for_in].
  - now rewrite Hbad.
  - rewrite Hc. cbn [bind]. apply IH.
Qed.

(** X7. When a text query of [must_text] does not compile and the ones
    before it do, [build_bool_query] raises the exception of that text
    query, whatever the rest of the request holds, provided the criteria
    are a mapping or falsy. *)
Theorem build_bool_query_must_error (request : dict) (pre post : list value)
    (bad : value) (e : exn) :
  (py_truthy (dict_get_default request "criteria" PNone) = false \/
   is_dict (dict_get_default request "criteria" PNone) = true) ->
  dict_get request "must_text" = Some (PList (pre ++ bad :: post)) ->
  Forall (fun tq => exists c, _multi_match_clause tq = Ok c) pre ->
  _multi_match_clause bad = Raise e ->
  build_bool_query (PDict request) = Raise e.
Proof.
  intros Hc Hm Hpre Hbad. unfold build_bool_query. cbn [py_get bind].
  assert (Hf : exists filters,
             _criteria_filters (py_or (dict_get_default request "criteria" PNone) (PDict []))
             = Ok filters).
  { destruct Hc as [Hc|Hc].
    - rewrite (py_or_falsy _ _ Hc). eexists. apply criteria_filters_dict.
    - destruct (dict_get_default request "criteria" PNone); try discriminate.
      rewrite py_or_dict. eexists. apply criteria_filters_dict. }
  destruct Hf as [filters ->]. cbn [bind].
  unfold dict_get_default at 1. rewrite Hm, py_or_list.
  unfold compile_clauses. cbn [py_iter bind].
  now rewrite (for_in_clauses_raise pre post bad e).
Qed.

Lemma build_bool_query_must_error_witness :
  build_bool_query
    (PDict [("must_text",
             PList [ PDict [("query", PStr "fuel"); ("fields", PList [])];
                     PDict [("fields", PList [])];
                     PDict [("query", PStr "risk"); ("fields", PList [])] ])])
  = Raise (KeyError "query").
Proof.
  apply (build_bool_query_must_error _
           [PDict [("query", PStr "fuel"); ("fields", PList [])]]
           [PDict [("query", PStr "risk"); ("fields", PList [])]]
           (PDict [("fields", PList [])])).
  - left. reflexivity.
  - reflexivity.
  - repeat constructor. eexists. reflexivity.
  - reflexivity.
Defined.

(** ** More on the search executor *)

(** [d[k]] returns when [d.get(k)] is truthy. *)
Lemma py_getitem_truthy (d : dict) (k : string) :
  py_truthy (dict_get_default d k PNone) = true ->
  py_getitem (PDict d) k = Ok (dict_get_default d k PNone).
Proof.
  unfold py_getitem, dict_get_default.
  destruct (dict_get d k); [reflexivity | discriminate].
Qed.

(** The payload of [search], from the entries of the request it is
    decided by. *)
Lemma search_body_dict (request : dict) (facets : bool)
    (facet_fields : option (list string)) (q : value) :
  build_bool_query (PDict request) = Ok q ->
  search_body (PDict request) facets facet_fields
  = let body :=
      [ ("query", q);
        ("size", dict_get_default request "size" (PInt 10));
        ("from", dict_get_default request "from_" (dict_get_default request "from" (PInt 0)));
        ("track_total_hits", dict_get_default request "track_total_hits" (PBool true)) ] in
    let body :=
      if py_truthy (dict_get_default request "explain" PNone)
      then dict_set body "explain" (PBool true) else body in
    let so := dict_get_default request "sort" PNone in
    let body := if py_truthy so then dict_set body "sort" so else body in
    let src_in := dict_get_default request "source_includes" PNone in
    let src_ex := dict_get_default request "source_excludes" PNone in
    let body :=
      if is_not_none src_in || is_not_none src_ex
      then dict_set body "_source"
             (PDict ((if is_not_none src_in then [("includes", src_in)] else [])
                     ++ (if is_not_none src_ex then [("excludes", src_ex)] else [])))
      else body in
    let body :=
      if facets
      then dict_set body "aggs"
             (PDict (fold_left
                       (fun aggs f =>
                          dict_set aggs (f ++ "_facet")%string
                            (PDict [("terms", PDict [("field", PStr f); ("size", PInt 50)])]))
                       (match facet_fields with
                        | Some (f :: fs) => f :: fs
                        | _ => DEFAULT_FACET_FIELDS
                        end) []))
      else body in
    Ok body.
Proof.
  intros Hq. unfold search_body. rewrite Hq. cbn [bind py_get]. cbv zeta.
  destruct (py_truthy (dict_get_default request "sort" PNone)) eqn:Hso.
  - rewrite (py_getitem_truthy _ _ Hso). cbn [bind].
    destruct (is_not_none (dict_get_default request "source_includes" PNone));
      destruct (is_not_none (dict_get_default request "source_excludes" PNone));
      reflexivity.
  - cbn [bind].
    destruct (is_not_none (dict_get_default request "source_includes" PNone));
      destruct (is_not_none (dict_get_default request "source_excludes" PNone));
      reflexivity.
Qed.

Ltac body_lookup :=
  repeat match goal with
         | |- context [if ?b then _ else _] => destruct b
         end;
  repeat first [ rewrite dict_get_set_same
               | rewrite dict_get_set_other by discriminate ];
  reflexivity.

(** A payload is assembled only from a request that compiles. *)
Lemma search_body_compiles (request : dict) (facets : bool)
    (facet_fields : option (list string)) (body : dict) :
  search_body (PDict request) facets facet_fields = Ok body ->
  exists q, build_bool_query (PDict request) = Ok q.
Proof.
  unfold search_body.
  destruct (build_bool_query (PDict request)) as [q|e]; [now exists q | discriminate].
Qed.

(** X8. In the payload of [search], [query] is the compiled query, [size],
    [from] and [track_total_hits] are the request's entries as they are,
    with 10, 0 and [True] for a missing entry; for the offset the key
    [from_] is read before [from]. *)
Theorem search_body_pagination (request : dict) (facets : bool)
    (facet_fields : option (list string)) (body : dict) :
  search_body (PDict request) facets facet_fields = Ok body ->
  exists q,
    build_bool_query (PDict request) = Ok q /\
    dict_get body "query" = Some q /\
    dict_get body "size" = Some (dict_get_default request "size" (PInt 10)) /\
    dict_get body "from"
      = Some (dict_get_default request "from_"
                (dict_get_default request "from" (PInt 0))) /\
    dict_get body "track_total_hits"
      = Some (dict_get_default request "track_total_hits" (PBool true)).
Proof.
  intros H. destruct (search_body_compiles _ _ _ _ H) as [q Hq].
  rewrite (search_body_dict _ _ _ _ Hq) in H. cbv zeta in H.
  injection H as <-. exists q. split; [exact Hq|].
  repeat split; body_lookup.
Qed.

(** X9. The payload of [search] has an [explain] key, with [True],
    exactly when the request's [explain] is truthy; a [sort] key, with the
    request's sort, exactly when that is truthy (an empty sort list gives
    none); and a [_source] key exactly when [source_includes] or
    [source_excludes] is not [None], holding [includes] and [excludes] for
    the ones that are not [None]. *)
Theorem search_body_optional_keys (request : dict) (facets : bool)
    (facet_fields : option (list string)) (body : dict) :
  search_body (PDict request) facets facet_fields = Ok body ->
  dict_get body "explain"
    = (if py_truthy (dict_get_default request "explain" PNone)
       then Some (PBool true) else None) /\
  dict_get body "sort"
    = (if py_truthy (dict_get_default request "sort" PNone)
       then Some (dict_get_default request "sort" PNone) else None) /\
  dict_get body "_source"
    = (let src_in := dict_get_default request "source_includes" PNone in
       let src_ex := dict_get_default request "source_excludes" PNone in
       if is_not_none src_in || is_not_none src_ex
       then Some (PDict ((if is_not_none src_in then [("includes", src_in)] else [])
                         ++ (if is_not_none src_ex then [("excludes", src_ex)] else [])))
       else None).
Proof.
  intros H. destruct (search_body_compiles _ _ _ _ H) as [q Hq].
  rewrite (search_body_dict _ _ _ _ Hq) in H. cbv zeta in H.
  injection H as <-. cbv zeta.
  repeat split; body_lookup.
Qed.

Lemma search_body_pagination_witness :
  exists q,
    build_bool_query (PDict [("size", PInt (-3)); ("from", PInt 7); ("from_", PInt 20)])
      = Ok q /\
    dict_get [("query", bool_query [] [] [] (PInt 0)); ("size", PInt (-3));
              ("from", PInt 20); ("track_total_hits", PBool true)] "query" = Some q /\
    dict_get [("query", bool_query [] [] [] (PInt 0)); ("size", PInt (-3));
              ("from", PInt 20); ("track_total_hits", PBool true)] "size"
      = Some (PInt (-3)) /\
    dict_get [("query", bool_query [] [] [] (PInt 0)); ("size", PInt (-3));
              ("from", PInt 20); ("track_total_hits", PBool true)] "from"
      = Some (PInt 20) /\
    dict_get [("query", bool_query [] [] [] (PInt 0)); ("size", PInt (-3));
              ("from", PInt 20); ("track_total_hits", PBool true)] "track_total_hits"
      = Some (PBool true).
Proof.
  apply (search_body_pagination
           [("size", PInt (-3)); ("from", PInt 7); ("from_", PInt 20)] false None).
  reflexivity.
Defined.

Lemma search_body_optional_keys_witness :
  let body :=
    [ ("query", bool_query [] [] [] (PInt 0)); ("size", PInt 10); ("from", PInt 0);
      ("track_total_hits", PBool true); ("explain", PBool true);
      ("_source", PDict [("excludes", PList [PStr "riskFactors"])]) ] in
  dict_get body "explain" = Some (PBool true) /\
  dict_get body "sort" = None /\
  dict_get body "_source" = Some (PDict [("excludes", PList [PStr "riskFactors"])]).
Proof.
  apply (search_body_optional_keys
           [ ("explain", PInt 1); ("sort", PList []);
             ("source_excludes", PList [PStr "riskFactors"]) ] false None).
  reflexivity.
Defined.

(** Strings with the same suffix appended are equal only when equal. *)
Lemma string_length_append (a b : string) :
  String.length (a ++ b)%string = (String.length a + String.length b)%nat.
Proof. induction a as [|c a IH]; simpl; [reflexivity | now rewrite IH]. Qed.

Lemma string_append_inj_l (a b t : string) :
  (a ++ t)%string = (b ++ t)%string -> a = b.
Proof.
  revert b. induction a as [|c a IH]; intros [|c' b] H; simpl in H.
  - reflexivity.
  - apply (f_equal String.length) in H. simpl in H.
    rewrite string_length_append in H. lia.
  - apply (f_equal String.length) in H. simpl in H.
    rewrite string_length_append in H. lia.
  - injection H as -> H. f_equal. now apply IH.
Qed.

(** The aggregations the loop over the facet fields leaves. *)
Lemma aggs_lookup (fields : list string) (acc : dict) (f : string) :
  In f fields \/ dict_get acc (f ++ "_facet")%string = Some (facet_aggregation f) ->
  dict_get
    (fold_left (fun aggs g => dict_set aggs (g ++ "_facet")%string (facet_aggregation g))
       fields acc)
    (f ++ "_facet")%string
  = Some (facet_aggregation f).
Proof.
  revert acc. induction fields as [|g fields IH]; intros acc H; cbn [fold_left].
  - destruct H as [[]|H]. exact H.
  - apply IH. destruct (string_dec g f) as [->|Hne].
    + right. apply dict_get_set_same.
    + destruct H as [[H|H]|H]; [contradiction | now left |].
      right. rewrite dict_get_set_other; [exact H|].
      intros E. apply Hne. now apply string_append_inj_l in E.
Qed.

Lemma aggs_keys (fields : list string) (acc : dict) (k : string) :
  dict_mem
    (fold_left (fun aggs g => dict_set aggs (g ++ "_facet")%string (facet_aggregation g))
       fields acc) k = true ->
  (exists f, In f fields /\ k = (f ++ "_facet")%string) \/ dict_mem acc k = true.
Proof.
  revert acc. induction fields as [|g fields IH]; intros acc H; cbn [fold_left] in H.
  - now right.
  - apply IH in H as [(f & Hin & ->)|H].
    + left. exists f. split; [now right | reflexivity].
    + destruct (string_dec (g ++ "_facet")%string k) as [<-|Hne].
      * left. exists g. split; [now left | reflexivity].
      * right. unfold dict_mem in *. now rewrite dict_get_set_other in H.
Qed.

(** X10. Without [facets] the payload of [search] has no [aggs]; with
    [facets] it has, for every facet field (the four default ones when none
    or an empty list is given), the terms aggregation of the field with
    size 50 under the key [<field>_facet], and no other aggregation. *)
Theorem search_body_aggs (request : dict) (facets : bool)
    (facet_fields : option (list string)) (body : dict) :
  search_body (PDict request) facets facet_fields = Ok body ->
  (facets = false -> dict_get body "aggs" = None)
  /\
  (facets = true ->
   exists aggs,
     dict_get body "aggs" = Some (PDict aggs) /\
     (forall f, In f (facet_fields_or_default facet_fields) ->
                dict_get aggs (f ++ "_facet")%string
                = Some (PDict [("terms", PDict [("field", PStr f); ("size", PInt 50)])])) /\
     (forall k, dict_mem aggs k = true ->
                exists f, In f (facet_fields_or_default facet_fields) /\
                          k = (f ++ "_facet")%string)).
Proof.
  intros H. destruct (search_body_compiles _ _ _ _ H) as [q Hq].
  rewrite (search_body_dict _ _ _ _ Hq) in H. cbv zeta in H.
  injection H as <-. split; intros ->.
  - body_lookup.
  - eexists. split; [apply dict_get_set_same|]. split.
    + intros f Hin. apply (aggs_lookup _ [] f). now left.
    + intros k Hk. apply aggs_keys in Hk as [Hk|Hk]; [exact Hk | discriminate].
Qed.

Lemma search_body_aggs_witness :
  exists aggs,
    dict_get
      [ ("query", bool_query [] [] [] (PInt 0)); ("size", PInt 10); ("from", PInt 0);
        ("track_total_hits", PBool true);
        ("aggs", PDict [ ("region_facet", facet_aggregation "region");
                         ("sector_facet", facet_aggregation "sector") ]) ] "aggs"
      = Some (PDict aggs) /\
    (forall f, In f ["region"; "sector"; "region"] ->
               dict_get aggs (f ++ "_facet")%string
               = Some (PDict [("terms", PDict [("field", PStr f); ("size", PInt 50)])])) /\
    (forall k, dict_mem aggs k = true ->
               exists f, In f ["region"; "sector"; "region"] /\ k = (f ++ "_facet")%string).
Proof.
  apply (proj2 (search_body_aggs [] true (Some ["region"; "sector"; "region"]) _ eq_refl)).
  reflexivity.
Defined.

Section SearchExecutorMore.

Context (index : string) (client_search : string -> value -> result value).

(** X11. For a dumped search request [search] always assembles a payload,
    with the request's [size] and [from_] as they are, whatever their sign
    or magnitude; an exception of the engine is raised on to the caller
    unchanged. *)
Theorem search_typed_request (r : SearchRequest) (facets : bool)
    (facet_fields : option (list string)) :
  exists body,
    search_body (PDict (SearchRequest_dict r)) facets facet_fields = Ok body /\
    dict_get body "size" = Some (PInt (size r)) /\
    dict_get body "from" = Some (PInt (from_ r)) /\
    dict_get body "track_total_hits" = Some (PBool (track_total_hits r)) /\
    (forall e,
        client_search index (PDict body) = Raise e ->
        search index client_search (PDict (SearchRequest_dict r)) facets facet_fields
        = Raise e).
Proof.
  assert (Hq := build_bool_query_fields (SearchRequest_dict r)
                  (Criteria_dict (criteria r)) (must_text r) (should_text r)
                  (PInt (minimum_should_match r)) eq_refl eq_refl eq_refl eq_refl).
  assert (Hb := search_body_dict (SearchRequest_dict r) facets facet_fields _ Hq).
  cbv zeta in Hb. eexists. split; [exact Hb|].
  split; [body_lookup|]. split; [body_lookup|]. split; [body_lookup|].
  intros e He. unfold search. rewrite Hb. cbn [bind]. now rewrite He.
Qed.

(** X12. When the engine answers with an object whose [hits] is an object
    or is missing, [search] returns an envelope whose [raw] is the answer
    and whose [query] is the payload that was sent; [hits] and
    [aggregations] are those of the answer, an empty list and an empty
    object when the answer has none; [total] is the [value] of a structured
    total ([None] when it has none or when there is no total), and any
    other total as it is. *)
Theorem search_envelope_content (request : value) (facets : bool)
    (facet_fields : option (list string)) (body resp h : dict) :
  search_body request facets facet_fields = Ok body ->
  client_search index (PDict body) = Ok (PDict resp) ->
  dict_get_default resp "hits" (PDict []) = PDict h ->
  exists env,
    search index client_search request facets facet_fields = Ok (PDict env) /\
    dict_get env "raw" = Some (PDict resp) /\
    dict_get env "query" = Some (PDict body) /\
    dict_get env "hits" = Some (dict_get_default h "hits" (PList [])) /\
    dict_get env "aggregations"
      = Some (dict_get_default resp "aggregations" (PDict [])) /\
    dict_get env "total"
      = Some (match dict_get_default h "total" (PDict []) with
              | PDict t => dict_get_default t "value" PNone
              | total => total
              end).
Proof.
  intros Hb Hr Hh. rewrite (search_answered _ _ _ _ _ _ _ Hb Hr).
  unfold search_envelope. cbn [py_get bind]. rewrite Hh. cbn [py_get bind].
  destruct (dict_get_default h "total" (PDict [])); cbn [is_dict py_get bind];
    eexists; repeat split.
Qed.

(** X13. When the engine's answer is not an object, or its [hits] is not
    an object, [search] raises [AttributeError]. *)
Theorem search_malformed_response (request : value) (facets : bool)
    (facet_fields : option (list string)) (body : dict) (resp : value) :
  search_body request facets facet_fields = Ok body ->
  client_search index (PDict body) = Ok resp ->
  (is_dict resp = false \/
   exists r h, resp = PDict r /\ dict_get r "hits" = Some h /\ is_dict h = false) ->
  search index client_search request facets facet_fields = Raise AttributeError.
Proof.
  intros Hb Hr Hbad. rewrite (search_answered _ _ _ _ _ _ _ Hb Hr).
  unfold search_envelope. destruct Hbad as [Hbad | (r & h & -> & Hh & Hd)].
  - now destruct resp.
  - cbn [py_get bind]. unfold dict_get_default. rewrite Hh. now destruct h.
Qed.

End SearchExecutorMore.

Lemma search_typed_request_witness :
  exists body,
    search_body (PDict (SearchRequest_dict example_request)) true None = Ok body /\
    dict_get body "size" = Some (PInt 5) /\
    dict_get body "from" = Some (PInt 0) /\
    dict_get body "track_total_hits" = Some (PBool true) /\
    search "memo" (fun _ _ => Raise (TransportError 503))
      (PDict (SearchRequest_dict example_request)) true None
    = Raise (TransportError 503).
Proof.
  destruct (search_typed_request "memo" (fun _ _ => Raise (TransportError 503))
              example_request true None) as (body & Hb & Hs & Hf & Ht & He).
  exists body. split; [exact Hb|]. split; [exact Hs|]. split; [exact Hf|].
  split; [exact Ht|]. now apply He.
Defined.

Lemma search_envelope_content_witness :
  exists env,
    search "memo" (fun _ _ => Ok (PDict [("took", PInt 2)]))
      (PDict (SearchRequest_dict example_request)) false None = Ok (PDict env) /\
    dict_get env "hits" = Some (PList []) /\
    dict_get env "aggregations" = Some (PDict []) /\
    dict_get env "total" = Some PNone.
Proof.
  destruct (search_envelope_content "memo" (fun _ _ => Ok (PDict [("took", PInt 2)]))
              (PDict (SearchRequest_dict example_request)) false None
              _ [("took", PInt 2)] [] eq_refl eq_refl eq_refl)
    as (env & He & _ & _ & Hh & Ha & Ht).
  exists env. repeat split; assumption.
Defined.

Lemma search_malformed_response_witness :
  search "memo" (fun _ _ => Ok (PDict [("hits", PList [])]))
    (PDict (SearchRequest_dict example_request)) false None
  = Raise AttributeError.
Proof.
  apply (search_malformed_response "memo" (fun _ _ => Ok (PDict [("hits", PList [])]))
           (PDict (SearchRequest_dict example_request)) false None
           _ (PDict [("hits", PList [])]) eq_refl eq_refl).
  right. exists [("hits", PList [])], (PList []). repeat split.
Defined.

(** ** The agent's entry point *)

(** The request [build_agent_request] builds compiles to a boolean
    query with a filter clause for each of industry, region and currency
    that has values, in that order, and never one for sector; with no must
    clause; with one should clause per query string, in order, on the
    fields [riskFactors] and [keyCommitteeDiscussionPoints], without boost;
    and with the threshold 1, or 0 when there is no query string. *)
Lemma build_agent_request_query (industry region currency query : list string)
    (size : Z) :
  build_bool_query
    (PDict (SearchRequest_dict (build_agent_request industry region currency query size)))
  = Ok (bool_query
          (values_filter "industry" industry ++ values_filter "region" region
           ++ values_filter "currency" currency)
          []
          (map agent_clause query)
          (PInt (match query with [] => 0 | _ :: _ => 1 end))).
Proof.
  rewrite (build_bool_query_fields _
             (Criteria_dict (mkCriteria industry [] region currency)) []
             (map (fun q => mkTextQuery q ["riskFactors"; "keyCommitteeDiscussionPoints"]
                              best_fields op_or float_one) query)
             (PInt 1)) by reflexivity.
  assert (Hf : flat_map (facet_clause (Criteria_dict (mkCriteria industry [] region currency)))
                 ["industry"; "sector"; "region"; "currency"]
               = values_filter "industry" industry ++ values_filter "region" region
                 ++ values_filter "currency" currency)
    by now destruct industry, region, currency.
  rewrite Hf, map_map. cbn [map]. now destruct query.
Qed.

Section AgentSearch.

Context (index : string) (client_search : string -> value -> result value).

(** X14. [agent_search] sends the engine one payload: the compiled query
    of its request, the given [size], offset 0, total tracking on, and the
    aggregations of the four default facet fields, with no [explain],
    [sort] or [_source]; it returns the envelope of the answer, or raises
    what the engine raises. *)
Theorem agent_search_payload (industry region currency query : list string)
    (size : Z) :
  let body :=
    [ ("query",
       bool_query
         (values_filter "industry" industry ++ values_filter "region" region
          ++ values_filter "currency" currency)
         []
         (map agent_clause query)
         (PInt (match query with [] => 0 | _ :: _ => 1 end)));
      ("size", PInt size);
      ("from", PInt 0);
      ("track_total_hits", PBool true);
      ("aggs", PDict [ ("industry_facet", facet_aggregation "industry");
                       ("sector_facet", facet_aggregation "sector");
                       ("region_facet", facet_aggregation "region");
                       ("currency_facet", facet_aggregation "currency") ]) ] in
  agent_search index client_search industry region currency query size
  = match client_search index (PDict body) with
    | Ok resp => search_envelope resp body
    | Raise e => Raise e
    end.
Proof.
  intros body. unfold agent_search, search.
  rewrite (search_body_dict _ true None _
             (build_agent_request_query industry region currency query size)).
  reflexivity.
Qed.

End AgentSearch.

(** ** Scrolling and counting *)

(** [build_bool_query] reads four entries of the request and no other. *)
Lemma build_bool_query_reads (r1 r2 : dict) :
  (forall k, In k compiled_keys -> dict_get r1 k = dict_get r2 k) ->
  build_bool_query (PDict r1) = build_bool_query (PDict r2).
Proof.
  intros H. unfold build_bool_query. cbn [py_get bind]. unfold dict_get_default.
  rewrite (H "criteria") by (simpl; tauto).
  destruct (_criteria_filters _); cbn [bind]; [|reflexivity].
  rewrite (H "must_text") by (simpl; tauto).
  destruct (compile_clauses _); cbn [bind]; [|reflexivity].
  rewrite (H "should_text") by (simpl; tauto).
  destruct (compile_clauses _); cbn [bind]; [|reflexivity].
  rewrite (H "minimum_should_match") by (simpl; tauto).
  reflexivity.
Qed.

Section ScrollAndCount.

Context (index : string)
        (client_search_scroll : string -> value -> string -> result value)
        (client_count : string -> value -> result value)
        (py_int : value -> result Z).

(** X15. The payload [search_with_scroll] sends, which its result carries
    under [query], has three entries only: the compiled query, [size] with
    100 for a missing entry, and [track_total_hits] with [True] for a
    missing entry; the [scroll_id] of the result is the [_scroll_id] of the
    answer, [None] when the answer has none. *)
Theorem search_with_scroll_result (request : dict) (scroll : string) (env : value) :
  search_with_scroll index client_search_scroll (PDict request) scroll = Ok env ->
  exists q resp,
    build_bool_query (PDict request) = Ok q /\
    let body :=
      [ ("query", q);
        ("size", dict_get_default request "size" (PInt 100));
        ("track_total_hits", dict_get_default request "track_total_hits" (PBool true)) ] in
    client_search_scroll index (PDict body) scroll = Ok (PDict resp) /\
    exists env', env = PDict env' /\
      dict_get env' "query" = Some (PDict body) /\
      dict_get env' "scroll_id" = Some (dict_get_default resp "_scroll_id" PNone) /\
      dict_get env' "raw" = Some (PDict resp).
Proof.
  unfold search_with_scroll.
  destruct (build_bool_query (PDict request)) as [q|e]; cbn [bind py_get]; [|discriminate].
  destruct (client_search_scroll index _ scroll) as [resp|e] eqn:Hr; cbn [bind];
    [|discriminate].
  destruct resp as [| | | | | |resp]; try discriminate. cbn [py_get bind].
  destruct (dict_get_default resp "hits" (PDict [])); try discriminate.
  cbn [py_get bind]. intros [= <-].
  exists q, resp. split; [reflexivity|]. cbv zeta. split; [exact Hr|].
  eexists. repeat split.
Qed.

(** X16. [search_with_scroll] reads the entries of the request that
    [build_bool_query] reads, [size] and [track_total_hits], and no other:
    requests that agree on these get the same result, so an offset, a sort
    or a source filter in the request changes nothing. *)
Theorem search_with_scroll_reads (r1 r2 : dict) (scroll : string) :
  (forall k, In k (compiled_keys ++ ["size"; "track_total_hits"]) ->
             dict_get r1 k = dict_get r2 k) ->
  search_with_scroll index client_search_scroll (PDict r1) scroll
  = search_with_scroll index client_search_scroll (PDict r2) scroll.
Proof.
  intros H. unfold search_with_scroll.
  rewrite (build_bool_query_reads r1 r2) by (intros k Hk; apply H, in_or_app; now left).
  destruct (build_bool_query (PDict r2)); cbn [bind py_get]; [|reflexivity].
  unfold dict_get_default.
  rewrite (H "size"), (H "track_total_hits")
    by (apply in_or_app; right; simpl; auto).
  reflexivity.
Qed.

(** X17. [count] sends the engine the compiled query alone, so it depends
    on no entry of the request but the four [build_bool_query] reads; when
    the engine answers with an integer [count], that is the result, and
    when the answer has no [count] the result is 0 ([int] being the
    identity on integers). *)
Theorem count_result (request : dict) (q : value) (resp : dict) :
  (forall n, py_int (PInt n) = Ok n) ->
  build_bool_query (PDict request) = Ok q ->
  client_count index (PDict [("query", q)]) = Ok (PDict resp) ->
  (forall request' : dict,
      (forall k, In k compiled_keys -> dict_get request' k = dict_get request k) ->
      count index client_count py_int (PDict request')
      = count index client_count py_int (PDict request))
  /\
  (forall n, dict_get resp "count" = Some (PInt n) ->
             count index client_count py_int (PDict request) = Ok n)
  /\
  (dict_get resp "count" = None ->
   count index client_count py_int (PDict request) = Ok 0%Z).
Proof.
  intros Hint Hq Hr. split; [|split].
  - intros request' H. unfold count. now rewrite (build_bool_query_reads _ _ H).
  - intros n Hn. unfold count. rewrite Hq. cbn [bind]. rewrite Hr. cbn [bind py_get].
    unfold dict_get_default. rewrite Hn. apply Hint.
  - intros Hn. unfold count. rewrite Hq. cbn [bind]. rewrite Hr. cbn [bind py_get].
    unfold dict_get_default. rewrite Hn. apply Hint.
Qed.

End ScrollAndCount.

Lemma search_with_scroll_result_witness :
  exists q resp,
    build_bool_query (PDict [("from", PInt 40)]) = Ok q /\
    let body :=
      [ ("query", q); ("size", PInt 100); ("track_total_hits", PBool true) ] in
    (fun (_ : string) (_ : value) (_ : string) =>
       Ok (PDict [("_scroll_id", PStr "c1"); ("hits", PDict [])]))
      "memo" (PDict body) "2m"
      = Ok (PDict resp) /\
    exists env',
      PDict [ ("scroll_id", PStr "c1"); ("hits", PList []);
              ("raw", PDict [("_scroll_id", PStr "c1"); ("hits", PDict [])]);
              ("query", PDict [ ("query", bool_query [] [] [] (PInt 0));
                                ("size", PInt 100);
                                ("track_total_hits", PBool true) ]) ]
      = PDict env' /\
      dict_get env' "query" = Some (PDict body) /\
      dict_get env' "scroll_id" = Some (dict_get_default resp "_scroll_id" PNone) /\
      dict_get env' "raw" = Some (PDict resp).
Proof.
  apply (search_with_scroll_result "memo"
           (fun _ _ _ => Ok (PDict [("_scroll_id", PStr "c1"); ("hits", PDict [])]))
           [("from", PInt 40)] "2m").
  reflexivity.
Defined.

Lemma search_with_scroll_reads_witness :
  search_with_scroll "memo" (fun _ body _ => Ok (PDict [("echo", body)]))
    (PDict [("size", PInt 5); ("from", PInt 40); ("sort", PList [PStr "_doc"])]) "2m"
  = search_with_scroll "memo" (fun _ body _ => Ok (PDict [("echo", body)]))
      (PDict [("size", PInt 5)]) "2m".
Proof.
  apply (search_with_scroll_reads "memo" (fun _ body _ => Ok (PDict [("echo", body)]))
           [("size", PInt 5); ("from", PInt 40); ("sort", PList [PStr "_doc"])]
           [("size", PInt 5)] "2m").
  intros k Hk. simpl in Hk.
  repeat (destruct Hk as [<-|Hk]; [reflexivity|]). destruct Hk.
Defined.

Lemma count_result_witness :
  count "memo" (fun _ _ => Ok (PDict [("count", PInt 12)])) example_int
    (PDict [("size", PInt 5)])
  = count "memo" (fun _ _ => Ok (PDict [("count", PInt 12)])) example_int (PDict [])
  /\
  count "memo" (fun _ _ => Ok (PDict [("count", PInt 12)])) example_int (PDict [])
  = Ok 12%Z.
Proof.
  destruct (count_result "memo" (fun _ _ => Ok (PDict [("count", PInt 12)])) example_int
              [] (bool_query [] [] [] (PInt 0)) [("count", PInt 12)]
              (fun n => eq_refl) eq_refl eq_refl) as (H1 & H2 & _).
  split.
  - apply H1. intros k Hk. simpl in Hk.
    repeat (destruct Hk as [<-|Hk]; [reflexivity|]). destruct Hk.
  - apply H2. reflexivity.
Defined.

(** ** More on the ingestion utility *)


Lemma string_append_nil_r (a : string) : (a ++ "")%string = a.
Proof. induction a as [|x a IH]; simpl; [reflexivity | now rewrite IH]. Qed.





Section EnsureIndex.

Context (OPENSEARCH_URL MEMO_INDEX : string) (json_dumps : value -> string)
        (World : Type)
        (requests_request : World -> string -> string -> option string
                            -> World * result Response).

(** X19. Unless the [HEAD] request for the index is answered with status
    404, [ensure_index] makes no other request: it raises what the request
    raised; or reports that the index exists and returns, when the status
    is outside 400..599; or raises [HTTPError] with the status. *)
Theorem ensure_index_no_create (w w1 : World) (r : result Response) :
  os_request OPENSEARCH_URL json_dumps requests_request w "HEAD" MEMO_INDEX PNone
    = (w1, r) ->
  (forall resp, r = Ok resp -> status_code resp <> 404%Z) ->
  ensure_index OPENSEARCH_URL MEMO_INDEX json_dumps requests_request w
  = (w1,
     match r with
     | Raise e => ([], Raise e)
     | Ok resp =>
         if ((400 <=? status_code resp) && (status_code resp <? 600))%Z
         then ([], Raise (HTTPError (status_code resp)))
         else (["Index exists: " ++ MEMO_INDEX]%string, Ok tt)
     end).
Proof.
  intros Hhead Hne. unfold ensure_index. rewrite Hhead.
  destruct r as [resp|e]; [|reflexivity].
  destruct (Z.eqb_spec (status_code resp) 404) as [E|_];
    [now elim (Hne resp eq_refl)|].
  unfold response_ok, raise_for_status.
  now destruct ((400 <=? status_code resp) && (status_code resp <? 600))%Z.
Qed.

(** X20. When the [HEAD] request for the index is answered with status
    404, [ensure_index] sends one [PUT] to the same URL with the dumped
    mapping: it raises what that request raised; or reports the creation
    and returns, when the status of the answer is outside 400..599; or
    raises [HTTPError] with that status. *)
Theorem ensure_index_create (w w1 w2 : World) (resp : Response)
    (cr : result Response) :
  let url := (rstrip "/" OPENSEARCH_URL ++ "/" ++ lstrip "/" MEMO_INDEX)%string in
  requests_request w "HEAD" url None = (w1, Ok resp) ->
  status_code resp = 404%Z ->
  requests_request w1 "PUT" url (Some (json_dumps memo_mapping)) = (w2, cr) ->
  ensure_index OPENSEARCH_URL MEMO_INDEX json_dumps requests_request w
  = (w2,
     match cr with
     | Raise e => ([], Raise e)
     | Ok created =>
         if ((400 <=? status_code created) && (status_code created <? 600))%Z
         then ([], Raise (HTTPError (status_code created)))
         else (["Created index: " ++ MEMO_INDEX]%string, Ok tt)
     end).
Proof.
  intros url Hhead H404 Hput. unfold ensure_index, os_request.
  cbn [is_not_none]. fold url. rewrite Hhead, H404. cbn [Z.eqb Pos.eqb].
  change (is_not_none memo_mapping) with true. cbv iota. rewrite Hput.
  destruct cr as [created|e]; [|reflexivity].
  unfold raise_for_status.
  now destruct ((400 <=? status_code created) && (status_code created <? 600))%Z.
Qed.

(** X21. [memo_to_bulk_lines] returns two lines whenever it returns: the
    dumped index action, which carries the index name and the memo's
    [memoId], then the dumped memo.  On a memo without [memoId] it raises
    [KeyError]. *)
Theorem memo_to_bulk_lines_pair :
  (forall memo lines,
      memo_to_bulk_lines MEMO_INDEX json_dumps memo = Ok lines ->
      exists memo_id,
        py_getitem memo "memoId" = Ok memo_id /\
        lines = [ json_dumps (PDict [("index", PDict [("_index", PStr MEMO_INDEX);
                                                      ("_id", memo_id)])]);
                  json_dumps memo ])
  /\
  (forall memo : dict,
      dict_get memo "memoId" = None ->
      memo_to_bulk_lines MEMO_INDEX json_dumps (PDict memo) = Raise (KeyError "memoId")).
Proof.
  split.
  - intros memo lines. unfold memo_to_bulk_lines.
    destruct (py_getitem memo "memoId") as [memo_id|e]; cbn [bind]; [|discriminate].
    intros [= <-]. now exists memo_id.
  - intros memo H. unfold memo_to_bulk_lines, py_getitem. now rewrite H.
Qed.

End EnsureIndex.

Lemma ensure_index_no_create_witness :
  ensure_index "http://localhost:9200/" "memo" (fun _ => "{}") example_server
    [("PUT", "http://localhost:9200/memo", Some "{}")]
  = ([ ("HEAD", "http://localhost:9200/memo", None);
       ("PUT", "http://localhost:9200/memo", Some "{}") ],
     (["Index exists: memo"], Ok tt)).
Proof.
  refine (ensure_index_no_create "http://localhost:9200/" "memo" (fun _ => "{}")
            example_world example_server _ _ _ eq_refl _).
  intros resp [= <-]. discriminate.
Defined.

Lemma ensure_index_create_witness :
  ensure_index "http://localhost:9200/" "memo" (fun _ => "{}") example_server []
  = ([ ("PUT", "http://localhost:9200/memo", Some "{}");
       ("HEAD", "http://localhost:9200/memo", None) ],
     (["Created index: memo"], Ok tt)).
Proof.
  exact (ensure_index_create "http://localhost:9200/" "memo" (fun _ => "{}")
           example_world example_server [] _ _ _ _ eq_refl eq_refl eq_refl).
Defined.

Lemma memo_to_bulk_lines_pair_witness :
  (exists memo_id,
      py_getitem (PDict [("memoId", PStr "m1"); ("clientName", PStr "Acme")]) "memoId"
        = Ok memo_id /\
      ["action"; "doc"]
      = [ (fun v => match v with PDict (("index", _) :: _) => "action" | _ => "doc" end)
            (PDict [("index", PDict [("_index", PStr "memo"); ("_id", memo_id)])]);
          (fun v => match v with PDict (("index", _) :: _) => "action" | _ => "doc" end)
            (PDict [("memoId", PStr "m1"); ("clientName", PStr "Acme")]) ])
  /\
  memo_to_bulk_lines "memo"
    (fun v => match v with PDict (("index", _) :: _) => "action" | _ => "doc" end)
    (PDict [("clientName", PStr "Acme")])
  = Raise (KeyError "memoId").
Proof.
  destruct (memo_to_bulk_lines_pair "memo"
              (fun v => match v with PDict (("index", _) :: _) => "action" | _ => "doc" end))
    as [H1 H2].
  split.
  - apply H1. reflexivity.
  - apply H2. reflexivity.
Defined.

(** ** More on the strict bulk path *)

Section StrictBulkMore.

Context (OPENSEARCH_URL : string)
        (requests_post : string -> string -> result Response).

(** X22. [bulk_index] raises what the request raises; when the answer has
    a status in 400..599 it raises [HTTPError] with that status, whatever
    the answer's body says; and when the body of an answer with another
    status cannot be decoded it raises what the decoding raises. *)
Theorem bulk_index_transport_failure (ndjson_lines : list string) :
  let url := (rstrip "/" OPENSEARCH_URL ++ "/_bulk")%string in
  let payload := (String.concat newline ndjson_lines ++ newline)%string in
  (forall e,
      requests_post url payload = Raise e ->
      bulk_index OPENSEARCH_URL requests_post ndjson_lines = Raise e)
  /\
  (forall resp,
      requests_post url payload = Ok resp ->
      (400 <= status_code resp < 600)%Z ->
      bulk_index OPENSEARCH_URL requests_post ndjson_lines
      = Raise (HTTPError (status_code resp)))
  /\
  (forall resp e,
      requests_post url payload = Ok resp ->
      (status_code resp < 400 \/ 600 <= status_code resp)%Z ->
      json resp = Raise e ->
      bulk_index OPENSEARCH_URL requests_post ndjson_lines = Raise e).
Proof.
  intros url payload. unfold bulk_index. fold url payload.
  split; [|split].
  - now intros e ->.
  - intros resp -> Hs. cbn [bind]. unfold raise_for_status.
    replace ((400 <=? status_code resp) && (status_code resp <? 600))%Z with true
      by (symmetry; apply andb_true_iff; split; [apply Z.leb_le | apply Z.ltb_lt]; lia).
    reflexivity.
  - intros resp e -> Hs Hj. cbn [bind]. unfold raise_for_status.
    replace ((400 <=? status_code resp) && (status_code resp <? 600))%Z with false.
    + cbn [bind]. now rewrite Hj.
    + symmetry. apply andb_false_iff.
      destruct Hs; [left; apply Z.leb_gt | right; apply Z.ltb_ge]; lia.
Qed.

(** Once three errors are collected the loop stops: the items after the
    one that gave the third are not looked at. *)
Lemma collect_errors_prefix (pre rest errors : list value) :
  forallb item_wf pre = true ->
  (List.length errors < 3)%nat ->
  (3 <= List.length (errors ++ flat_map item_error pre))%nat ->
  collect_errors (pre ++ rest) errors
  = Ok (firstn 3 (errors ++ flat_map item_error pre)).
Proof.
  revert errors. induction pre as [|it pre IH]; intros errors Hwf Hlen Hthree.
  - cbn [flat_map] in Hthree. rewrite app_nil_r in Hthree. lia.
  - cbn [forallb] in Hwf. apply andb_true_iff in Hwf as [Hit Hwf].
    destruct it as [| | | | | |[|[k [| | | | | |action]] more]]; try discriminate.
    cbn [app collect_errors first_value bind py_contains flat_map item_error] in *.
    unfold dict_mem, py_getitem.
    destruct (dict_get action "error") as [e|]; cbn [bind app] in *.
    + destruct (Nat.leb_spec 3 (List.length (errors ++ [e]))) as [Hge|Hlt].
      * assert (H3 : List.length (errors ++ [e]) = 3%nat).
        { rewrite length_app in *. cbn [List.length] in *. lia. }
        replace (errors ++ e :: flat_map item_error pre)
          with ((errors ++ [e]) ++ flat_map item_error pre)
          by now rewrite <- app_assoc.
        rewrite firstn_app, H3, Nat.sub_diag, <- H3, firstn_all.
        cbn [firstn]. now rewrite app_nil_r.
      * rewrite IH; [now rewrite <- app_assoc | assumption | assumption |].
        now rewrite <- app_assoc.
    + destruct (Nat.leb_spec 3 (List.length errors)) as [Hge|Hlt]; [lia|].
      now apply IH.
Qed.

(** An item that is not an object with a first member, met before three
    errors are collected, stops the loop with its exception. *)
Lemma collect_errors_bad_item (pre post errors : list value) (bad : value)
    (e : exn) :
  forallb item_wf pre = true ->
  (List.length (errors ++ flat_map item_error pre) < 3)%nat ->
  first_value bad = Raise e ->
  collect_errors (pre ++ bad :: post) errors = Raise e.
Proof.
  revert errors. induction pre as [|it pre IH]; intros errors Hwf Hlen Hbad.
  - cbn [app collect_errors]. now rewrite Hbad.
  - cbn [forallb] in Hwf. apply andb_true_iff in Hwf as [Hit Hwf].
    destruct it as [| | | | | |[|[k [| | | | | |action]] more]]; try discriminate.
    cbn [app collect_errors first_value bind py_contains flat_map item_error] in *.
    unfold dict_mem, py_getitem.
    destruct (dict_get action "error") as [x|]; cbn [bind app] in *.
    + destruct (Nat.leb_spec 3 (List.length (errors ++ [x]))) as [Hge|Hlt].
      * rewrite !length_app in *. cbn [List.length] in *. lia.
      * apply IH; [assumption | now rewrite <- app_assoc | assumption].
    + destruct (Nat.leb_spec 3 (List.length errors)) as [Hge|Hlt].
      * rewrite length_app in Hlen. lia.
      * now apply IH.
Qed.

(** X23. When the answer has its [errors] flag set and three of its items
    carry an error, [bulk_index] looks at no item after the third of them:
    with well-formed items up to there, it raises the [RuntimeError] with
    the first three error payloads whatever the later items are.  When an
    item that is an empty object, or not an object, comes earlier, with
    well-formed items before it, [bulk_index] raises the exception of that
    item instead ([StopIteration] or [AttributeError]). *)
Theorem bulk_index_item_scan (ndjson_lines : list string) (resp : Response)
    (result : dict) (pre post : list value) :
  requests_post (rstrip "/" OPENSEARCH_URL ++ "/_bulk")%string
                (String.concat newline ndjson_lines ++ newline)%string
    = Ok resp ->
  raise_for_status resp = Ok tt ->
  json resp = Ok (PDict result) ->
  py_truthy (dict_get_default result "errors" PNone) = true ->
  forallb item_wf pre = true ->
  ((3 <= List.length (flat_map item_error pre))%nat ->
   dict_get result "items" = Some (PList (pre ++ post)) ->
   bulk_index OPENSEARCH_URL requests_post ndjson_lines
   = Raise (RuntimeError (firstn 3 (flat_map item_error pre))))
  /\
  (forall bad e,
      (List.length (flat_map item_error pre) < 3)%nat ->
      first_value bad = Raise e ->
      dict_get result "items" = Some (PList (pre ++ bad :: post)) ->
      bulk_index OPENSEARCH_URL requests_post ndjson_lines = Raise e /\
      (e = StopIteration \/ e = AttributeError)).
Proof.
  intros Hpost Hstatus Hjson Hflag Hwf. unfold bulk_index.
  rewrite Hpost. cbn [bind]. rewrite Hstatus. cbn [bind].
  rewrite Hjson. cbn [bind py_get]. rewrite Hflag. unfold dict_get_default.
  split.
  - intros Hthree ->. cbn [py_iter bind].
    rewrite (collect_errors_prefix pre post []); [reflexivity | assumption | | assumption].
    simpl. lia.
  - intros bad e Hlt Hbad ->. cbn [py_iter bind].
    rewrite (collect_errors_bad_item pre post [] bad e); try assumption.
    split; [reflexivity|].
    destruct bad as [| | | | | |[|[k v] more]]; cbn [first_value] in Hbad;
      inversion Hbad; auto.
Qed.

End StrictBulkMore.

Lemma bulk_index_transport_failure_witness :
  bulk_index "http://localhost:9200"
    (fun _ _ => Ok (mkResponse 503 (Ok example_clean_response))) ["{}"; "{}"]
  = Raise (HTTPError 503).
Proof.
  apply (proj1 (proj2 (bulk_index_transport_failure "http://localhost:9200"
                         (fun _ _ => Ok (mkResponse 503 (Ok example_clean_response)))
                         ["{}"; "{}"]))
           (mkResponse 503 (Ok example_clean_response)) eq_refl).
  cbn [status_code]. lia.
Defined.

Lemma bulk_index_item_scan_witness :
  bulk_index "http://localhost:9200"
    (fun _ _ => Ok (mkResponse 200 (Ok (PDict example_scan_result)))) ["{}"; "{}"]
  = Raise (RuntimeError [PStr "first"; PStr "second"; PStr "third"])
  /\
  bulk_index "http://localhost:9200"
    (fun _ _ => Ok (mkResponse 200 (Ok (PDict example_broken_result)))) ["{}"; "{}"]
  = Raise StopIteration.
Proof.
  split.
  - refine (proj1 (bulk_index_item_scan "http://localhost:9200"
                     (fun _ _ => Ok (mkResponse 200 (Ok (PDict example_scan_result))))
                     ["{}"; "{}"] (mkResponse 200 (Ok (PDict example_scan_result)))
                     example_scan_result example_scan_items
                     [PDict []; PStr "not an item"]
                     eq_refl eq_refl eq_refl eq_refl eq_refl) _ eq_refl).
    simpl. lia.
  - refine (proj1 (proj2 (bulk_index_item_scan "http://localhost:9200"
                            (fun _ _ => Ok (mkResponse 200 (Ok (PDict example_broken_result))))
                            ["{}"; "{}"] (mkResponse 200 (Ok (PDict example_broken_result)))
                            example_broken_result
                            [PDict [("index", PDict [("error", PStr "first")])]]
                            [PDict [("index", PDict [("error", PStr "second")])]]
                            eq_refl eq_refl eq_refl eq_refl eq_refl)
                     (PDict []) StopIteration _ eq_refl eq_refl)).
    simpl. lia.
Defined.


